(** * astroplan.plots.sky: a shallow embedding of [plot_sky]

    The development follows [src/astroplan/plots/sky.py].  [plot_sky] is a
    single Python function that queries an observer for the altitude and
    azimuth of a target, filters the samples that lie below the horizon,
    draws the remaining ones on a polar matplotlib axes and labels the axes.

    - Numbers are NumPy doubles.  The arithmetic the function uses is
      collected in the class [Arith]; the instance [binary64] is IEEE 754
      double precision (the standard library's [SpecFloat], round to nearest
      even, with NaN and infinities) and is the arithmetic the program runs
      with.  The instance [exact] interprets the same program over the
      rationals; it is used only where a statement is explicitly about exact
      arithmetic.
    - Effects (the matplotlib axes, [warnings.warn], the calls made to the
      observer, exceptions) are threaded through a state-and-exception monad
      [M].  A Python exception keeps the effects that happened before it.
      The drawing primitives of matplotlib record their arguments in the
      axes; what matplotlib does with them is outside the model.
    - The [while] loop of the tick labels takes fuel; running out of fuel is
      the outcome [Hang]. *)

From Stdlib Require Import ZArith QArith Qround List String Ascii Bool Lia Lqa.
From Stdlib Require Import SpecFloat.
Import ListNotations.

Local Open Scope Z_scope.

(** ** Arithmetic *)

(** The operations of [sky.py] on numbers.  [of_int] is an integer or an
    integer-valued float literal ([91], [91.0], [360.0], [45.0], [180.0]);
    [np_pi] is the constant [np.pi]. *)
Class Arith (F : Type) : Type := {
  of_int : Z -> F;
  np_pi : F;
  fadd : F -> F -> F;
  fsub : F -> F -> F;
  fmul : F -> F -> F;
  fdiv : F -> F -> F;
  fgt : F -> F -> bool;
  fle : F -> F -> bool;
  fge : F -> F -> bool;
  flt : F -> F -> bool
}.

(** IEEE 754 binary64: 53 bits of precision, [emax = 1024]. *)
Module B64.
Definition prec : Z := 53.
Definition emax : Z := 1024.

Definition of_Z (z : Z) : spec_float := binary_normalize prec emax z 0 false.

(** [m * 2^e], rounded to the nearest double. *)
Definition ldexp (m e : Z) : spec_float := binary_normalize prec emax m e false.

(** [np.pi] is the double [0x400921FB54442D18]. *)
Definition pi : spec_float := S754_finite false 7074237752028440 (-51).

Definition nan : spec_float := S754_nan.
Definition is_nan (x : spec_float) : bool :=
  match x with S754_nan => true | _ => false end.
Definition inf : spec_float := S754_infinity false.

Definition add := SFadd prec emax.
Definition sub := SFsub prec emax.
Definition mul := SFmul prec emax.
Definition div := SFdiv prec emax.
Definition ltb := SFltb.
Definition leb := SFleb.
Definition gtb (x y : spec_float) : bool := SFltb y x.
Definition geb (x y : spec_float) : bool := SFleb y x.

(** The double 91 is [m91 * 2^-46]. *)
Definition m91 : Z := 6403555720167424.
Definition f91 : spec_float := S754_finite false 6403555720167424 (-46).

(** Rounding, as [SpecFloat] does it: a mantissa [m] at the exponent [e] is
    shifted right by [shift m e] bits to fit the format, and a rounded
    mantissa is finished into a number. *)
Definition shift (m e : Z) : Z :=
  Z.max 0 (fexp prec emax (Zdigits2 m + e) - e).

Definition finish (sx : bool) (m e : Z) : spec_float :=
  match m with
  | Z0 => S754_zero sx
  | Zpos p =>
      if e <=? emax - prec then S754_finite sx p e else S754_infinity sx
  | Zneg _ => S754_nan
  end.

(** The double 360: [360 = m360 * 2^-44]. *)
Definition m360 : Z := 6333186975989760.
Definition f360 : spec_float := S754_finite false 6333186975989760 (-44).

(** A double that is not negative and not NaN: a zero, plus infinity or a
    positive finite number in canonical form. *)
Definition nonneg (x : spec_float) : bool :=
  match x with
  | S754_zero _ => true
  | S754_infinity s => negb s
  | S754_nan => false
  | S754_finite s m e => negb s && bounded prec emax m e
  end.

(** A zero, or a positive finite number in canonical form below [2^61]. *)
Definition small (x : spec_float) : bool :=
  match x with
  | S754_zero _ => true
  | S754_finite false m e => bounded prec emax m e && (e <=? 8)
  | _ => false
  end.

(** The magnitude of a finite double in units of [2^-1074]. *)
Definition scaled (x : spec_float) : Z :=
  match x with
  | S754_finite _ m e => Zpos m * 2 ^ (e + 1074)
  | _ => 0
  end.
End B64.

#[export] Instance binary64 : Arith spec_float := {
  of_int := B64.of_Z;
  np_pi := B64.pi;
  fadd := B64.add;
  fsub := B64.sub;
  fmul := B64.mul;
  fdiv := B64.div;
  fgt := B64.gtb;
  fle := B64.leb;
  fge := B64.geb;
  flt := B64.ltb
}.

(** The same operations over the rationals, without rounding.  [np_pi] is
    the rational number that the double [np.pi] denotes. *)
Module Exact.
Definition pi : Q := (884279719003555 # 281474976710656)%Q.
Definition gtb (x y : Q) : bool := negb (Qle_bool x y).
Definition geb (x y : Q) : bool := Qle_bool y x.
Definition ltb (x y : Q) : bool := negb (Qle_bool y x).
End Exact.

#[export] Instance exact : Arith Q := {
  of_int := inject_Z;
  np_pi := Exact.pi;
  fadd := Qplus;
  fsub := Qminus;
  fmul := Qmult;
  fdiv := Qdiv;
  fgt := Exact.gtb;
  fle := Qle_bool;
  fge := Exact.geb;
  flt := Exact.ltb
}.

(** ** Python values used by the function *)

Module Py.
(** [range(start, stop, step)] for a positive [step]. *)
Definition range (start stop step : Z) : list Z :=
  map (fun k => start + step * Z.of_nat k)
      (seq 0 (Z.to_nat ((stop - start + step - 1) / step))).

(** A [dict] with string keys, in insertion order. *)
Definition dict := list (string * string).

Definition contains (k : string) (d : dict) : bool :=
  existsb (fun kv => String.eqb k (fst kv)) d.

(** [d.setdefault(k, v)] *)
Definition setdefault (k v : string) (d : dict) : dict :=
  if contains k d then d else d ++ [(k, v)].

(** [d.get(k)]: the value of the first entry for [k]. *)
Definition get (k : string) (d : dict) : option string :=
  match find (fun kv => String.eqb k (fst kv)) d with
  | Some kv => Some (snd kv)
  | None => None
  end.

Definition newline : string := String "010"%char EmptyString.
Definition dquote : string := String "034"%char EmptyString.

(** [u'\N{DEGREE SIGN}'], U+00B0, in UTF-8. *)
Definition degree_sign : string :=
  String "194"%char (String "176"%char EmptyString).

(** Truth value of a [str]: the empty string is false. *)
Definition truthy (s : string) : bool :=
  match s with EmptyString => false | String _ _ => true end.
End Py.

(** ** Data model and effects *)

Section Sky.
Context {F : Type} {A : Arith F}.

(** [astropy.time.Time] instants with their [str]; the payload of a target
    (its coordinates); [str] of a number. *)
Context {Time Body : Type}.
Variable time_str : Time -> string.
Variable float_str : F -> string.

(** One element of the frame [observer.altaz(time, target)]: altitude and
    azimuth of one time sample, in degrees. *)
Record AltAz : Type := mkAltAz { alt : F; az : F }.

(** A target: [name] is [None] when the object has no attribute [name]. *)
Record Target : Type := mkTarget { name : option string; body : Body }.

Inductive exn : Type :=
| ObserverError (msg : string)
| IndexError.

(** The observer's capability: one call covers a whole array of times. *)
Record Observer : Type := mkObserver {
  altaz : list Time -> Target -> exn + list AltAz
}.

(** The [time] argument: a scalar [Time] or an array of instants. *)
Inductive TimeArg : Type :=
| ScalarTime (t : Time)
| ArrayTime (ts : list Time).

(** One call of [ax.scatter(theta, r, **style)]. *)
Record ScatterCall : Type := mkScatter {
  sc_theta : list F;
  sc_r : list F;
  sc_style : Py.dict
}.

(** The state of a polar [Axes] that [plot_sky] reads or writes. *)
Record Axes : Type := mkAxes {
  theta_zero_location : string;
  theta_direction : Z;
  collections : list ScatterCall;
  rlim : Z * Z;
  grid_on : bool;
  rgrids : list Z * list string * Z;
  thetagrids : list Z * list string * Q;
  draws : nat
}.

(** What a call can change: the axes it draws on, the warnings emitted so
    far and the calls received by the observer. *)
Record World : Type := mkWorld {
  ax : Axes;
  warnings : list string;
  altaz_calls : list (list Time * Target)
}.

Inductive outcome (R : Type) : Type :=
| Ret (r : R)
| Raise (e : exn)
| Hang.
#[local] Arguments Ret {R} r.
#[local] Arguments Raise {R} e.
#[local] Arguments Hang {R}.

Definition M (R : Type) : Type := World -> outcome R * World.

Definition ret {R} (r : R) : M R := fun w => (Ret r, w).

Definition bind {R S} (c : M R) (k : R -> M S) : M S :=
  fun w =>
    match c w with
    | (Ret r, w') => k r w'
    | (Raise e, w') => (Raise e, w')
    | (Hang, w') => (Hang, w')
    end.

Definition raise {R} (e : exn) : M R := fun w => (Raise e, w).
Definition hang {R} : M R := fun w => (Hang, w).

Notation "x <- c ;; k" := (bind c (fun x => k))
  (at level 61, c at next level, right associativity).
Notation "c ;;; k" := (bind c (fun _ => k))
  (at level 61, right associativity).

Definition update_ax (f : Axes -> Axes) : M unit :=
  fun w => (Ret tt, mkWorld (f (ax w)) (warnings w) (altaz_calls w)).

(** [ax = plt.gca(projection='polar')] when [ax is None]: the world's axes
    are pyplot's current axes unless the caller passes its own. *)
Definition resolve_ax (ax_arg : option Axes) : M unit :=
  match ax_arg with
  | None => ret tt
  | Some a => update_ax (fun _ => a)
  end.

Definition get_ax : M Axes := fun w => (Ret (ax w), w).

(** [warnings.warn(msg)] *)
Definition warn (msg : string) : M unit :=
  fun w => (Ret tt, mkWorld (ax w) (warnings w ++ [msg]) (altaz_calls w)).

(** [observer.altaz(time, target)]: the call is recorded, a failure of the
    capability is raised as it is. *)
Definition call_altaz (o : Observer) (ts : list Time) (t : Target)
  : M (list AltAz) :=
  fun w =>
    let w' := mkWorld (ax w) (warnings w) (altaz_calls w ++ [(ts, t)]) in
    match altaz o ts t with
    | inr frame => (Ret frame, w')
    | inl e => (Raise e, w')
    end.

(** [xs[i]] for [0 <= i]. *)
Definition getitem {X} (xs : list X) (i : nat) : M X :=
  match nth_error xs i with
  | Some x => ret x
  | None => raise IndexError
  end.

Definition set_theta_zero_location (loc : string) : M unit :=
  update_ax (fun a =>
    mkAxes loc (theta_direction a) (collections a) (rlim a) (grid_on a)
           (rgrids a) (thetagrids a) (draws a)).

Definition set_theta_direction (d : Z) : M unit :=
  update_ax (fun a =>
    mkAxes (theta_zero_location a) d (collections a) (rlim a) (grid_on a)
           (rgrids a) (thetagrids a) (draws a)).

Definition scatter (theta r : list F) (style : Py.dict) : M unit :=
  update_ax (fun a =>
    mkAxes (theta_zero_location a) (theta_direction a)
           (collections a ++ [mkScatter theta r style]) (rlim a) (grid_on a)
           (rgrids a) (thetagrids a) (draws a)).

Definition set_rlim (lo hi : Z) : M unit :=
  update_ax (fun a =>
    mkAxes (theta_zero_location a) (theta_direction a) (collections a)
           (lo, hi) (grid_on a) (rgrids a) (thetagrids a) (draws a)).

Definition ax_grid (b : bool) : M unit :=
  update_ax (fun a =>
    mkAxes (theta_zero_location a) (theta_direction a) (collections a)
           (rlim a) b (rgrids a) (thetagrids a) (draws a)).

Definition set_rgrids (radii : list Z) (labels : list string) (angle : Z)
  : M unit :=
  update_ax (fun a =>
    mkAxes (theta_zero_location a) (theta_direction a) (collections a)
           (rlim a) (grid_on a) (radii, labels, angle) (thetagrids a)
           (draws a)).

Definition set_thetagrids (angles : list Z) (labels : list string) (frac : Q)
  : M unit :=
  update_ax (fun a =>
    mkAxes (theta_zero_location a) (theta_direction a) (collections a)
           (rlim a) (grid_on a) (rgrids a) (angles, labels, frac)
           (draws a)).

(** [ax.figure.canvas.draw()] *)
Definition canvas_draw : M unit :=
  update_ax (fun a =>
    mkAxes (theta_zero_location a) (theta_direction a) (collections a)
           (rlim a) (grid_on a) (rgrids a) (thetagrids a) (S (draws a))).

(** ** [plot_sky] *)

(** [time = Time(time); if time.isscalar: time = Time([time])] *)
Definition normalize_time (time : TimeArg) : list Time :=
  match time with
  | ScalarTime t => [t]
  | ArrayTime ts => ts
  end.

(** [(91 * u.deg - frame.alt) * (1/u.deg)] *)
Definition radial (s : AltAz) : F := fsub (of_int 91) (alt s).

(** [frame.az * (1/u.deg) * (np.pi/180.0)] *)
Definition angular (s : AltAz) : F := fmul (az s) (fdiv np_pi (of_int 180)).

(** [target_name]: the empty string when the target has no [name]. *)
Definition target_name (t : Target) : string :=
  match name t with
  | None => EmptyString
  | Some n => n
  end.

(** ['Warning: Target "{0}" is below the horizon at time: {1}'.format(
       target_name if target_name else 'Unknown Name', time[alt])] *)
Definition horizon_msg (tname : string) (t : Time) : string :=
  ("Warning: Target " ++ Py.dquote
     ++ (if Py.truthy tname then tname else "Unknown Name")
     ++ Py.dquote ++ " is below the horizon at time: " ++ time_str t)%string.

(** The loop [for alt in range(0, len(altitude))]; [idx] is what is left of
    the range and [az_plot] the array built so far ([None] at the start). *)
Fixpoint horizon_loop (tname : string) (time : list Time)
         (altitude azimuth : list F) (idx : list nat)
         (az_plot : option (list F)) : M (option (list F)) :=
  match idx with
  | [] => ret az_plot
  | i :: rest =>
      a <- getitem altitude i ;;
      if fgt a (of_int 91) then
        t <- getitem time i ;;
        warn (horizon_msg tname t) ;;;
        horizon_loop tname time altitude azimuth rest az_plot
      else
        z <- getitem azimuth i ;;
        horizon_loop tname time altitude azimuth rest
          (Some match az_plot with
                | None => [z]
                | Some l => l ++ [z]
                end)
  end.

(** [if az_plot is None: az_plot = []] *)
Definition or_empty (az_plot : option (list F)) : list F :=
  match az_plot with
  | None => []
  | Some l => l
  end.

Definition r_labels : list string :=
  [ ("90" ++ Py.degree_sign)%string;
    EmptyString;
    ("60" ++ Py.degree_sign)%string;
    EmptyString;
    ("30" ++ Py.degree_sign)%string;
    EmptyString;
    ("0" ++ Py.degree_sign ++ " Alt.")%string ].

(** [while label_angle >= 360.0: label_angle -= 360.0] *)
Fixpoint wrap_360 (fuel : nat) (label_angle : F) : option F :=
  match fuel with
  | O => None
  | S fuel' =>
      if fge label_angle (of_int 360)
      then wrap_360 fuel' (fsub label_angle (of_int 360))
      else Some label_angle
  end.

(** [label_angle] of one [chunk], after the [while] loop. *)
Definition label_angle (fuel : nat) (az_label_offset : F) (chunk : Z)
  : option F :=
  wrap_360 fuel (fadd az_label_offset (fmul (of_int chunk) (of_int 45))).

(** The label appended for [chunk]. *)
Definition theta_label (chunk : Z) (angle : F) : string :=
  let value := (float_str angle ++ Py.degree_sign)%string in
  if chunk =? 0 then ("N " ++ Py.newline ++ value ++ " Az")%string
  else if chunk =? 2 then ("E" ++ Py.newline ++ value)%string
  else if chunk =? 4 then ("S" ++ Py.newline ++ value)%string
  else if chunk =? 6 then ("W" ++ Py.newline ++ value)%string
  else value.

(** The loop [for chunk in range(0, 7)]; [None] when a [while] loop does
    not finish within [fuel] iterations. *)
Fixpoint theta_labels_loop (fuel : nat) (az_label_offset : F)
         (chunks : list Z) (theta_labels : list string)
  : option (list string) :=
  match chunks with
  | [] => Some theta_labels
  | chunk :: rest =>
      match label_angle fuel az_label_offset chunk with
      | None => None
      | Some angle =>
          theta_labels_loop fuel az_label_offset rest
            (theta_labels ++ [theta_label chunk angle])
      end
  end.

Definition theta_labels (fuel : nat) (az_label_offset : F)
  : option (list string) :=
  theta_labels_loop fuel az_label_offset (Py.range 0 7 1) [].

Definition plot_sky (fuel : nat) (target : Target) (observer : Observer)
           (time : TimeArg) (ax_arg : option Axes)
           (style_kwargs : option Py.dict)
           (north_to_east_ccw grid : bool) (az_label_offset : F)
  : M Axes :=
  resolve_ax ax_arg ;;;
  let style_kwargs :=
    match style_kwargs with None => [] | Some d => d end in
  let style_kwargs := Py.setdefault "marker" "o" style_kwargs in
  let time := normalize_time time in
  frame <- call_altaz observer time target ;;
  let altitude := map radial frame in
  frame' <- call_altaz observer time target ;;
  let azimuth := map angular frame' in
  let tname := target_name target in
  let style_kwargs := Py.setdefault "label" tname style_kwargs in
  az_plot <- horizon_loop tname time altitude azimuth
               (seq 0 (List.length altitude)) None ;;
  let alt_plot := filter (fun a => fle a (of_int 91)) altitude in
  let az_plot := or_empty az_plot in
  set_theta_zero_location "N" ;;;
  (if north_to_east_ccw then ret tt else set_theta_direction (-1)) ;;;
  scatter az_plot alt_plot style_kwargs ;;;
  set_rlim 1 91 ;;;
  (if grid then ax_grid true else ret tt) ;;;
  (if negb grid then ax_grid false else ret tt) ;;;
  match theta_labels fuel az_label_offset with
  | None => hang
  | Some labels =>
      set_rgrids (Py.range 1 106 15) r_labels (-45) ;;;
      set_thetagrids (Py.range 0 360 45) labels (12 # 10)%Q ;;;
      canvas_draw ;;;
      get_ax
  end.

(** ** Vocabulary of the statements *)

(** The axes a call draws on. *)
Definition start_axes (ax_arg : option Axes) (w : World) : Axes :=
  match ax_arg with
  | None => ax w
  | Some a => a
  end.

(** The test of the loop: the transformed altitude is above 91. *)
Definition below_horizon (s : AltAz) : bool := fgt (radial s) (of_int 91).

(** The test of the mask [altitude <= 91.0]. *)
Definition in_mask (s : AltAz) : bool := fle (radial s) (of_int 91).

(** One message per sample that is below the horizon, in sample order. *)
Definition horizon_warnings (tname : string) (time : list Time)
           (frame : list AltAz) : list string :=
  map (fun ts => horizon_msg tname (fst ts))
      (filter (fun ts => below_horizon (snd ts)) (combine time frame)).

(** The style passed to [scatter]: the caller's keys, with the defaults
    for [marker] and [label]. *)
Definition resolved_style (style_kwargs : option Py.dict) (t : Target)
  : Py.dict :=
  Py.setdefault "label" (target_name t)
    (Py.setdefault "marker" "o"
       (match style_kwargs with None => [] | Some d => d end)).

(** The axes once the points are drawn and the limits and grid set. *)
Definition drawn_axes (a : Axes) (north_to_east_ccw grid : bool)
           (sc : ScatterCall) : Axes :=
  mkAxes "N" (if north_to_east_ccw then theta_direction a else -1)
         (collections a ++ [sc]) (1, 91) grid
         (rgrids a) (thetagrids a) (draws a).

(** The axes once the ticks are labelled and the canvas redrawn. *)
Definition labelled_axes (a : Axes) (labels : list string) : Axes :=
  mkAxes (theta_zero_location a) (theta_direction a) (collections a)
         (rlim a) (grid_on a)
         (Py.range 1 106 15, r_labels, -45)
         (Py.range 0 360 45, labels, (12 # 10)%Q)
         (S (draws a)).

(** The world a run leaves when the observer answered [frame] and the
    axes have become [a]: one warning per sample below the horizon and two
    queries of the observer. *)
Definition world_after (w : World) (target : Target) (times : list Time)
           (frame : list AltAz) (a : Axes) : World :=
  mkWorld a
    (warnings w ++ horizon_warnings (target_name target) times frame)
    (altaz_calls w ++ [(times, target); (times, target)]).
End Sky.

Arguments AltAz : clear implicits.
Arguments Target : clear implicits.
Arguments Observer : clear implicits.
Arguments TimeArg : clear implicits.
Arguments ScatterCall : clear implicits.
Arguments Axes : clear implicits.
Arguments World : clear implicits.
Arguments M : clear implicits.
Arguments Ret {R} r.
Arguments Raise {R} e.
Arguments Hang {R}.

(** ** Sample data: a run in double precision *)

Module Demo.
Local Open Scope string_scope.

Definition Time := string.
Definition time_str (t : Time) : string := t.

(** A stand-in for [str] of a double. *)
Definition float_str (x : spec_float) : string :=
  match x with
  | S754_zero _ => "0.0"
  | S754_nan => "nan"
  | S754_infinity _ => "inf"
  | S754_finite _ _ _ => "x"
  end.

Definition vega : Target unit := mkTarget (Some "Vega") tt.

(** An observer that answers every query with [frame]. *)
Definition seeing (frame : list (AltAz spec_float))
  : Observer spec_float Time unit :=
  mkObserver (fun _ _ => inr frame).

(** An observer whose capability fails. *)
Definition blind : Observer spec_float Time unit :=
  mkObserver (fun _ _ => inl (ObserverError "unresolvable target")).

Definition deg (alt az : Z) : AltAz spec_float :=
  mkAltAz (of_int alt) (of_int az).

(** Altitude [-2^-60] degrees, azimuth 0. *)
Definition barely_below : AltAz spec_float :=
  mkAltAz (B64.ldexp (-1) (-60)) (of_int 0).

(** Altitude NaN, azimuth 90 degrees. *)
Definition undefined : AltAz spec_float := mkAltAz B64.nan (of_int 90).

Definition fresh_axes : Axes spec_float :=
  mkAxes "E" 1 [] (0, 1) false ([], [], 0) ([], [], 0%Q) 0.

(** An axes that an earlier call configured clockwise. *)
Definition clockwise_axes : Axes spec_float :=
  mkAxes "N" (-1) [mkScatter [of_int 0] [of_int 46] [("marker", "o")]]
         (1, 91) true ([], [], 0) ([], [], 0%Q) 1.

Definition world0 : World spec_float Time unit := mkWorld fresh_axes [] [].

(** The seven label angles of a whole-degree offset are computed within
    [fuel] iterations and lie in [0, 360). *)
Definition labels_in_range (fuel : nat) (offset : Z) : bool :=
  forallb
    (fun chunk =>
       match label_angle fuel (B64.of_Z offset) chunk with
       | Some a => fle (B64.of_Z 0) a && flt a (B64.of_Z 360)
       | None => false
       end)
    (Py.range 0 7 1).

(** Two doubles with the same representation. *)
Definition same_double (x y : spec_float) : bool :=
  match x, y with
  | S754_zero s, S754_zero s' => Bool.eqb s s'
  | S754_infinity s, S754_infinity s' => Bool.eqb s s'
  | S754_nan, S754_nan => true
  | S754_finite s m e, S754_finite s' m' e' =>
      Bool.eqb s s' && Pos.eqb m m' && Z.eqb e e'
  | _, _ => false
  end.

(** The seven label angles of a whole-degree offset are computed within
    [fuel] iterations and are the doubles of [(offset + 45 * chunk) mod 360]. *)
Definition labels_mod_360 (fuel : nat) (offset : Z) : bool :=
  forallb
    (fun chunk =>
       match label_angle fuel (B64.of_Z offset) chunk with
       | Some a => same_double a (B64.of_Z ((offset + 45 * chunk) mod 360))
       | None => false
       end)
    (Py.range 0 7 1).

(** [plot_sky(vega, observer, Time(times))] with the default arguments. *)
Definition run (observer : Observer spec_float Time unit)
           (times : list Time) :=
  plot_sky time_str float_str 8 vega observer (ArrayTime times)
           None None true true (of_int 0) world0.
End Demo.

(** * Properties *)

(** ** The loops and the whole run, for any arithmetic *)

Section SkyFacts.
Context {F : Type} {A : Arith F} {Time Body : Type}.
Variable time_str : Time -> string.
Variable float_str : F -> string.

Lemma nth_error_middle {X} (l l' : list X) (x : X) :
  nth_error (l ++ x :: l') (List.length l) = Some x.
Proof.
  induction l as [|y l IH]; simpl; [reflexivity | exact IH].
Qed.

Lemma filter_all_false {X} (p : X -> bool) (l : list X) :
  Forall (fun x => p x = false) l -> filter p l = [].
Proof.
  induction 1 as [|x l Hx Hl IH]; cbn [filter]; [reflexivity|].
  rewrite Hx. exact IH.
Qed.

(** The loop over the samples never raises when the frame has one entry
    per instant: it warns once for each sample above 91, in order, and
    appends the azimuth of each other sample to [az_plot]. *)
Lemma horizon_loop_run (tname : string) :
  forall (suf_s : list (AltAz F)) (suf_t pre_t : list Time)
         (pre_s : list (AltAz F)) (acc : option (list F))
         (w : World F Time Body),
    List.length pre_t = List.length pre_s ->
    List.length suf_t = List.length suf_s ->
    exists r,
      horizon_loop time_str tname (pre_t ++ suf_t)
        (map radial (pre_s ++ suf_s)) (map angular (pre_s ++ suf_s))
        (seq (List.length pre_s) (List.length suf_s)) acc w
      = (Ret r,
         mkWorld (ax w)
           (warnings w ++ horizon_warnings time_str tname suf_t suf_s)
           (altaz_calls w))
      /\ or_empty r
         = or_empty acc
             ++ map angular
                  (filter (fun s => negb (below_horizon s)) suf_s).
Proof.
  induction suf_s as [|s suf_s IH]; intros suf_t pre_t pre_s acc w Hpre Hsuf.
  - destruct suf_t; [|discriminate]. simpl.
    exists acc. unfold ret, horizon_warnings. simpl.
    rewrite !app_nil_r. destruct w; split; reflexivity.
  - destruct suf_t as [|t suf_t]; [discriminate|].
    injection Hsuf as Hsuf.
    assert (Hpre' : List.length (pre_t ++ [t]) = List.length (pre_s ++ [s]))
      by (rewrite !length_app; simpl; lia).
    assert (Halt : nth_error (map radial (pre_s ++ s :: suf_s))
                     (List.length pre_s) = Some (radial s))
      by (rewrite nth_error_map, nth_error_middle; reflexivity).
    assert (Haz : nth_error (map angular (pre_s ++ s :: suf_s))
                    (List.length pre_s) = Some (angular s))
      by (rewrite nth_error_map, nth_error_middle; reflexivity).
    assert (Ht : nth_error (pre_t ++ t :: suf_t) (List.length pre_s) = Some t)
      by (rewrite <- Hpre; apply nth_error_middle).
    assert (Hlen : List.length (pre_s ++ [s]) = S (List.length pre_s))
      by (rewrite length_app; simpl; lia).
    cbn [seq horizon_loop List.length].
    unfold bind at 1, getitem at 1. rewrite Halt. cbn [ret].
    unfold horizon_warnings. cbn [combine filter snd].
    fold (below_horizon s).
    destruct (below_horizon s) eqn:Hs.
    + unfold bind at 1, getitem at 1. rewrite Ht. cbn [ret].
      unfold bind at 1, warn at 1.
      destruct (IH suf_t (pre_t ++ [t]) (pre_s ++ [s]) acc
                   (mkWorld (ax w)
                      (warnings w ++ [horizon_msg time_str tname t])
                      (altaz_calls w)) Hpre' Hsuf) as (r & Hrun & Hr).
      rewrite <- !app_assoc, Hlen in Hrun. cbn [app] in Hrun.
      exists r. split.
      * rewrite Hrun. cbn [ax warnings altaz_calls map fst].
        unfold horizon_warnings. rewrite <- app_assoc. reflexivity.
      * rewrite Hr. reflexivity.
    + unfold bind at 1, getitem at 1. rewrite Haz. cbn [ret].
      destruct (IH suf_t (pre_t ++ [t]) (pre_s ++ [s])
                   (Some match acc with
                         | None => [angular s]
                         | Some l => l ++ [angular s]
                         end) w Hpre' Hsuf) as (r & Hrun & Hr).
      rewrite <- !app_assoc, Hlen in Hrun. cbn [app] in Hrun.
      exists r. split.
      * rewrite Hrun. reflexivity.
      * rewrite Hr. cbn [negb map or_empty].
        destruct acc; cbn [or_empty app]; [rewrite <- app_assoc|]; reflexivity.
Qed.
(** The whole run, when the observer answers with one entry per instant:
    the points are drawn, and the ticks are labelled unless a [while]
    loop of the labels is still running when the fuel is spent. *)
Lemma plot_sky_run fuel target observer time ax_arg style_kwargs
      north_to_east_ccw grid az_label_offset (w : World F Time Body) frame :
  altaz observer (normalize_time time) target = inr frame ->
  List.length frame = List.length (normalize_time time) ->
  let a :=
    drawn_axes (start_axes ax_arg w) north_to_east_ccw grid
      (mkScatter
         (map angular (filter (fun s => negb (below_horizon s)) frame))
         (map radial (filter in_mask frame))
         (resolved_style style_kwargs target)) in
  plot_sky time_str float_str fuel target observer time ax_arg style_kwargs
           north_to_east_ccw grid az_label_offset w
  = match theta_labels float_str fuel az_label_offset with
    | Some labels =>
        (Ret (labelled_axes a labels),
         world_after time_str w target (normalize_time time) frame (labelled_axes a labels))
    | None => (Hang, world_after time_str w target (normalize_time time) frame a)
    end.
Proof.
  intros Hobs Hlen a.
  destruct (horizon_loop_run (target_name target) frame (normalize_time time)
              [] [] None
              (mkWorld (start_axes ax_arg w) (warnings w)
                 ((altaz_calls w ++ [(normalize_time time, target)])
                    ++ [(normalize_time time, target)]))
              eq_refl (eq_sym Hlen)) as (r & Hrun & Hr).
  cbn [app List.length ax warnings altaz_calls or_empty] in Hrun, Hr.
  unfold plot_sky.
  unfold bind at 1.
  replace (resolve_ax ax_arg w)
    with (Ret tt, mkWorld (start_axes ax_arg w) (warnings w) (altaz_calls w))
    by (destruct ax_arg, w; reflexivity).
  unfold bind at 1, call_altaz at 1. rewrite Hobs.
  cbn [ax warnings altaz_calls].
  unfold bind at 1, call_altaz at 1. rewrite Hobs.
  cbn [ax warnings altaz_calls].
  unfold bind at 1. rewrite length_map, Hrun, Hr.
  subst a. unfold world_after, drawn_axes, labelled_axes, resolved_style, in_mask.
  rewrite <- app_assoc. cbn [app].
  rewrite filter_map_swap.
  destruct north_to_east_ccw, grid,
    (theta_labels float_str fuel az_label_offset); reflexivity.
Qed.

(** A failure of the observer ends the run at the first query. *)
Lemma plot_sky_observer_fails fuel target observer time ax_arg style_kwargs
      north_to_east_ccw grid az_label_offset (w : World F Time Body) e :
  altaz observer (normalize_time time) target = inl e ->
  plot_sky time_str float_str fuel target observer time ax_arg style_kwargs
           north_to_east_ccw grid az_label_offset w
  = (Raise e,
     mkWorld (start_axes ax_arg w) (warnings w)
       (altaz_calls w ++ [(normalize_time time, target)])).
Proof.
  intros Hobs. unfold plot_sky.
  unfold bind at 1.
  replace (resolve_ax ax_arg w)
    with (Ret tt, mkWorld (start_axes ax_arg w) (warnings w) (altaz_calls w))
    by (destruct ax_arg, w; reflexivity).
  unfold bind at 1, call_altaz at 1. rewrite Hobs. reflexivity.
Qed.
End SkyFacts.

(** ** Comparisons of doubles *)

Section Binary64Facts.
Lemma SFcompare_antisym (x y : spec_float) :
  SFcompare y x = option_map CompOpp (SFcompare x y).
Proof.
  destruct x as [sx|sx| |sx mx ex], y as [sy|sy| |sy my ey];
    cbn [SFcompare option_map];
    try reflexivity;
    try (destruct sx; reflexivity);
    try (destruct sy; reflexivity);
    try (destruct sx, sy; reflexivity).
  pose proof (Pos.compare_cont_antisym mx my Eq) as Hm.
  cbn [CompOpp] in Hm.
  destruct sx, sy; cbn [CompOpp]; try reflexivity;
    rewrite (Z.compare_antisym ex ey);
    destruct (ex ?= ey); cbn [CompOpp]; try reflexivity;
    rewrite <- Hm;
    destruct (Pos.compare_cont Eq mx my); reflexivity.
Qed.

(** A double above another is not below or equal to it. *)
Lemma b64_gt_not_le (x y : spec_float) :
  fgt x y = true -> fle x y = false.
Proof.
  cbn [fgt fle binary64]. unfold B64.gtb, B64.leb, SFltb, SFleb.
  rewrite (SFcompare_antisym x y).
  destruct (SFcompare x y) as [[| |]|]; cbn; congruence.
Qed.

(** Away from NaN the two tests of [plot_sky] are complementary. *)
Lemma b64_le_negb_gt (x y : spec_float) :
  SFcompare x y <> None -> fle x y = negb (fgt x y).
Proof.
  cbn [fgt fle binary64]. unfold B64.gtb, B64.leb, SFltb, SFleb.
  rewrite (SFcompare_antisym x y).
  destruct (SFcompare x y) as [[| |]|]; cbn; congruence.
Qed.

(** A NaN is neither above nor below-or-equal. *)
Lemma b64_nan_unordered (y : spec_float) :
  fgt B64.nan y = false /\ fle B64.nan y = false.
Proof. split; destruct y; reflexivity. Qed.
End Binary64Facts.

(** ** Rounding in double precision *)

Lemma digits2_pos_size (p : positive) : digits2_pos p = Pos.size p.
Proof. induction p as [p IH|p IH|]; cbn; congruence. Qed.

Lemma Zdigits2_pos_bounds (p : positive) :
  2 ^ (Zpos (digits2_pos p) - 1) <= Zpos p < 2 ^ Zpos (digits2_pos p).
Proof.
  rewrite digits2_pos_size. split.
  - pose proof (Pos.size_le p) as H.
    apply Pos2Z.pos_le_pos in H. rewrite Pos2Z.inj_pow in H.
    change (Zpos p~0) with (2 * Zpos p) in H.
    replace (Zpos (Pos.size p)) with (Z.succ (Zpos (Pos.size p) - 1)) in H by lia.
    rewrite Z.pow_succ_r in H by lia. lia.
  - pose proof (Pos.size_gt p) as H.
    apply Pos2Z.pos_lt_pos in H. rewrite Pos2Z.inj_pow in H. exact H.
Qed.

Lemma Zdigits2_nonneg (m : Z) : 0 <= Zdigits2 m.
Proof. destruct m; cbn; lia. Qed.

Lemma Zdigits2_upper (m n : Z) : 0 <= n -> 0 <= m < 2 ^ n -> Zdigits2 m <= n.
Proof.
  intros Hn [Hm Hlt]. destruct m as [|p|p]; cbn [Zdigits2]; try lia.
  destruct (Z_le_gt_dec (Zpos (digits2_pos p)) n) as [H|H]; [exact H|].
  exfalso. pose proof (proj1 (Zdigits2_pos_bounds p)) as Hlo.
  assert (2 ^ n <= 2 ^ (Zpos (digits2_pos p) - 1))
    by (apply Z.pow_le_mono_r; lia).
  lia.
Qed.

Lemma Zdigits2_lower (m : Z) : 0 < m -> 2 ^ (Zdigits2 m - 1) <= m < 2 ^ Zdigits2 m.
Proof.
  destruct m as [|p|p]; try lia. intros _. apply Zdigits2_pos_bounds.
Qed.

Lemma iter_xO_pow (d m : positive) : Zpos (Pos.iter xO m d) = Zpos m * 2 ^ Zpos d.
Proof.
  revert m. induction d as [|d IH] using Pos.peano_ind; intros m.
  - cbn [Pos.iter]. lia.
  - rewrite Pos.iter_succ, Pos2Z.inj_succ, Z.pow_succ_r by lia.
    change (Zpos (Pos.iter xO m d)~0) with (2 * Zpos (Pos.iter xO m d)).
    rewrite IH. lia.
Qed.

Lemma shr_1_m (mrs : shr_record) :
  0 <= shr_m mrs -> shr_m (shr_1 mrs) = shr_m mrs / 2.
Proof.
  destruct mrs as [m r s]; cbn [shr_m shr_1]. intros Hm.
  destruct m as [|[p|p|]|p]; cbn [shr_m].
  - reflexivity.
  - apply Z.div_unique with (r := 1); lia.
  - apply Z.div_unique with (r := 0); lia.
  - reflexivity.
  - lia.
Qed.

Lemma pow2_pos (n : Z) : 0 <= n -> 0 < 2 ^ n.
Proof. intros. apply Z.pow_pos_nonneg; lia. Qed.

Lemma pow2_xI (n : positive) : 2 ^ Zpos n~1 = 2 * 2 ^ Zpos n * 2 ^ Zpos n.
Proof.
  rewrite (Pos2Z.inj_xI n).
  replace (2 * Zpos n + 1) with (1 + Zpos n + Zpos n) by lia.
  rewrite Z.pow_add_r by lia. rewrite Z.pow_add_r by lia. reflexivity.
Qed.

Lemma pow2_xO (n : positive) : 2 ^ Zpos n~0 = 2 ^ Zpos n * 2 ^ Zpos n.
Proof.
  rewrite (Pos2Z.inj_xO n).
  replace (2 * Zpos n) with (Zpos n + Zpos n) by lia.
  rewrite Z.pow_add_r by lia. reflexivity.
Qed.

Lemma iter_shr_1_m (n : positive) :
  forall mrs, 0 <= shr_m mrs ->
    shr_m (iter_pos shr_1 n mrs) = shr_m mrs / 2 ^ Zpos n.
Proof.
  induction n as [n IH|n IH|]; intros mrs Hm; cbn [iter_pos].
  - pose proof (pow2_pos (Zpos n) ltac:(lia)) as Hp.
    assert (H1 : 0 <= shr_m (shr_1 mrs))
      by (rewrite shr_1_m by exact Hm; apply Z.div_pos; lia).
    assert (H2 : 0 <= shr_m (iter_pos shr_1 n (shr_1 mrs)))
      by (rewrite IH by exact H1; apply Z.div_pos; lia).
    rewrite IH by exact H2. rewrite IH by exact H1. rewrite shr_1_m by exact Hm.
    rewrite !Z.div_div by lia. rewrite pow2_xI. f_equal. lia.
  - pose proof (pow2_pos (Zpos n) ltac:(lia)) as Hp.
    assert (H2 : 0 <= shr_m (iter_pos shr_1 n mrs))
      by (rewrite IH by exact Hm; apply Z.div_pos; lia).
    rewrite IH by exact H2. rewrite IH by exact Hm.
    rewrite !Z.div_div by lia. rewrite pow2_xO. reflexivity.
  - rewrite shr_1_m by exact Hm. reflexivity.
Qed.

Lemma shift_nonneg m e : 0 <= B64.shift m e.
Proof. unfold B64.shift. lia. Qed.

Lemma shr_record_of_loc_m m l : shr_m (shr_record_of_loc m l) = m.
Proof. destruct l as [|[| |]]; reflexivity. Qed.

Lemma shr_fexp_spec (m e : Z) (l : location) :
  0 <= m ->
  snd (shr_fexp B64.prec B64.emax m e l) = e + B64.shift m e
  /\ shr_m (fst (shr_fexp B64.prec B64.emax m e l)) = m / 2 ^ B64.shift m e.
Proof.
  intros Hm. unfold shr_fexp, shr, B64.shift.
  destruct (fexp B64.prec B64.emax (Zdigits2 m + e) - e) as [|n|n];
    cbn [fst snd].
  - rewrite shr_record_of_loc_m, Z.div_1_r. split; [lia|reflexivity].
  - rewrite iter_shr_1_m by (rewrite shr_record_of_loc_m; exact Hm).
    rewrite shr_record_of_loc_m.
    replace (Z.max 0 (Zpos n)) with (Zpos n) by lia. split; reflexivity.
  - rewrite shr_record_of_loc_m.
    replace (Z.max 0 (Zneg n)) with 0 by lia.
    rewrite Z.div_1_r. split; [lia|reflexivity].
Qed.

Lemma round_nearest_even_bounds (m : Z) (l : location) :
  m <= round_nearest_even m l <= m + 1.
Proof.
  destruct l as [|[| |]]; cbn [round_nearest_even]; try lia.
  destruct (Z.even m); lia.
Qed.

(** Rounding a non-negative mantissa: B64.shift, round to an adjacent integer,
    B64.shift again. *)
Lemma binary_round_aux_spec (sx : bool) (m e : Z) (l : location) :
  0 <= m ->
  exists m2,
    m / 2 ^ B64.shift m e <= m2 <= m / 2 ^ B64.shift m e + 1
    /\ binary_round_aux B64.prec B64.emax sx m e l
       = B64.finish sx (m2 / 2 ^ B64.shift m2 (e + B64.shift m e))
                (e + B64.shift m e + B64.shift m2 (e + B64.shift m e)).
Proof.
  intros Hm. unfold binary_round_aux.
  destruct (shr_fexp_spec m e l Hm) as [He1 Hm1].
  destruct (shr_fexp B64.prec B64.emax m e l) as [mrs1 e1].
  cbn [fst snd] in He1, Hm1. subst e1.
  set (m2 := round_nearest_even (shr_m mrs1) (loc_of_shr_record mrs1)).
  assert (Hm2 : shr_m mrs1 <= m2 <= shr_m mrs1 + 1)
    by apply round_nearest_even_bounds.
  assert (H1 : 0 <= shr_m mrs1)
    by (rewrite Hm1; apply Z.div_pos; [exact Hm|apply pow2_pos, shift_nonneg]).
  destruct (shr_fexp_spec m2 (e + B64.shift m e) loc_Exact ltac:(lia)) as [He3 Hm3].
  destruct (shr_fexp B64.prec B64.emax m2 (e + B64.shift m e) loc_Exact)
    as [mrs3 e3].
  cbn [fst snd] in He3, Hm3. subst e3.
  exists m2. split; [rewrite <- Hm1; exact Hm2|].
  rewrite Hm3. reflexivity.
Qed.

(** The sign of a rounded number is the sign that was asked for. *)
Lemma binary_round_aux_sign (sx : bool) (m e : Z) (l : location) :
  match binary_round_aux B64.prec B64.emax sx m e l with
  | S754_zero s | S754_infinity s | S754_finite s _ _ => s = sx
  | S754_nan => True
  end.
Proof.
  unfold binary_round_aux.
  destruct (shr_fexp B64.prec B64.emax m e l) as [mrs1 e1].
  destruct (shr_fexp B64.prec B64.emax _ e1 loc_Exact) as [mrs3 e3].
  destruct (shr_m mrs3); [reflexivity| |exact I].
  destruct (e3 <=? B64.emax - B64.prec); reflexivity.
Qed.

Lemma fexp_b64 (k : Z) :
  fexp B64.prec B64.emax k = Z.max (k - 53) (-1074).
Proof. reflexivity. Qed.

Lemma pow2_split (a b : Z) : 0 <= a -> 0 <= b -> 2 ^ (a + b) = 2 ^ a * 2 ^ b.
Proof. intros. apply Z.pow_add_r; assumption. Qed.

(** A mantissa at most [91 * 2^-e] has at most [7 - e] digits. *)
Lemma digits_le_91 (m e : Z) :
  e <= -46 -> 0 <= m <= B64.m91 * 2 ^ (-46 - e) -> Zdigits2 m <= 7 - e.
Proof.
  intros He [Hm Hle]. apply Zdigits2_upper; [lia|]. split; [exact Hm|].
  replace (7 - e) with (53 + (-46 - e)) by lia.
  rewrite pow2_split by lia.
  pose proof (pow2_pos (-46 - e) ltac:(lia)) as Hp.
  assert (B64.m91 < 2 ^ 53) by (vm_compute; reflexivity).
  nia.
Qed.

Lemma shift_le_91 (m e : Z) :
  e <= -46 -> 0 <= m <= B64.m91 * 2 ^ (-46 - e) ->
  e + B64.shift m e <= -46
  /\ 0 <= m / 2 ^ B64.shift m e <= B64.m91 * 2 ^ (-46 - (e + B64.shift m e)).
Proof.
  intros He Hm.
  pose proof (digits_le_91 m e He Hm) as Hd.
  pose proof (shift_nonneg m e) as Hs.
  assert (Hes : e + B64.shift m e <= -46)
    by (unfold B64.shift in *; rewrite fexp_b64 in *; lia).
  split; [exact Hes|].
  pose proof (pow2_pos (B64.shift m e) Hs) as Hp.
  split; [apply Z.div_pos; lia|].
  apply Z.div_le_upper_bound; [exact Hp|].
  replace (-46 - e) with (B64.shift m e + (-46 - (e + B64.shift m e))) in Hm by lia.
  rewrite pow2_split in Hm by lia. nia.
Qed.

Lemma shift_lt_91 (m e : Z) :
  e <= -46 -> 0 <= m < B64.m91 * 2 ^ (-46 - e) ->
  e + B64.shift m e <= -46
  /\ 0 <= m / 2 ^ B64.shift m e < B64.m91 * 2 ^ (-46 - (e + B64.shift m e)).
Proof.
  intros He Hm.
  destruct (shift_le_91 m e He ltac:(lia)) as [Hes [Hlo _]].
  pose proof (shift_nonneg m e) as Hs.
  pose proof (pow2_pos (B64.shift m e) Hs) as Hp.
  split; [exact Hes|]. split; [exact Hlo|].
  apply Z.div_lt_upper_bound; [exact Hp|].
  replace (-46 - e) with (B64.shift m e + (-46 - (e + B64.shift m e))) in Hm by lia.
  rewrite pow2_split in Hm by lia. nia.
Qed.

(** A finished number of value at most 91 is not above 91. *)
Lemma finish_le_91 (m e : Z) :
  e <= -46 -> 0 <= m <= B64.m91 * 2 ^ (-46 - e) ->
  SFltb B64.f91 (B64.finish false m e) = false.
Proof.
  intros He [Hm Hle]. unfold B64.finish.
  destruct m as [|p|p]; [reflexivity| |lia].
  replace (e <=? B64.emax - B64.prec) with true
    by (symmetry; apply Z.leb_le; unfold B64.emax, B64.prec; lia).
  unfold SFltb, B64.f91. cbn [SFcompare].
  destruct (Z.compare_spec (-46) e) as [Heq|Hlt|Hgt]; [|lia|reflexivity].
  subst e. change (-46 - -46) with 0 in Hle. rewrite Z.pow_0_r in Hle.
  unfold B64.m91 in Hle.
  change (Pos.compare_cont Eq 6403555720167424 p)
    with (6403555720167424 ?= Zpos p).
  destruct (Z.compare_spec 6403555720167424 (Zpos p)); try reflexivity. lia.
Qed.

(** Rounding a number of value below 91 gives a number that is not above
    91. *)
Lemma binary_round_aux_below_91 (m e : Z) (l : location) :
  e <= -46 -> 0 <= m < B64.m91 * 2 ^ (-46 - e) ->
  SFltb B64.f91 (binary_round_aux B64.prec B64.emax false m e l) = false.
Proof.
  intros He Hm.
  destruct (binary_round_aux_spec false m e l ltac:(lia)) as (m2 & Hm2 & ->).
  destruct (shift_lt_91 m e He Hm) as [He1 Hm1].
  destruct (shift_le_91 m2 (e + B64.shift m e) He1 ltac:(lia)) as [He3 Hm3].
  apply finish_le_91; assumption.
Qed.

(** A mantissa of value above 91 has more than [6 - e] digits. *)
Lemma digits_gt_91 (m e : Z) :
  e <= -46 -> (B64.m91 + 1) * 2 ^ (-46 - e) <= m -> 7 - e <= Zdigits2 m.
Proof.
  intros He Hle.
  pose proof (pow2_pos (-46 - e) ltac:(lia)) as Hp.
  assert (Hm : 0 < m) by (unfold B64.m91 in Hle; nia).
  pose proof (proj2 (Zdigits2_lower m Hm)) as Hhi.
  assert (H52 : 2 ^ 52 <= B64.m91 + 1) by (vm_compute; discriminate).
  assert (Hlow : 2 ^ (6 - e) <= m).
  { replace (6 - e) with (52 + (-46 - e)) by lia.
    rewrite pow2_split by lia. nia. }
  assert (Hlt : 2 ^ (6 - e) < 2 ^ Zdigits2 m) by lia.
  apply Z.pow_lt_mono_r_iff in Hlt; [lia|lia|apply Zdigits2_nonneg].
Qed.

Lemma shift_gt_91 (m e : Z) :
  0 < m ->
  (e <= -46 -> (B64.m91 + 1) * 2 ^ (-46 - e) <= m) ->
  0 < m / 2 ^ B64.shift m e
  /\ m / 2 ^ B64.shift m e < 2 ^ 53
  /\ (e + B64.shift m e <= -46 ->
      (B64.m91 + 1) * 2 ^ (-46 - (e + B64.shift m e)) <= m / 2 ^ B64.shift m e).
Proof.
  intros Hm Hbound.
  pose proof (shift_nonneg m e) as Hs.
  pose proof (pow2_pos (B64.shift m e) Hs) as Hp.
  destruct (Zdigits2_lower m Hm) as [Hlo Hhi].
  assert (Hd : 1 <= Zdigits2 m).
  { destruct m as [|p|p]; cbn [Zdigits2]; lia. }
  assert (Hs1 : Zdigits2 m - 53 <= B64.shift m e)
    by (unfold B64.shift; rewrite fexp_b64; lia).
  assert (Hs2 : B64.shift m e <= Zdigits2 m - 1).
  { unfold B64.shift. rewrite fexp_b64.
    destruct (Z_le_gt_dec e (-46)) as [He|He].
    - pose proof (digits_gt_91 m e He (Hbound He)). lia.
    - lia. }
  split; [|split].
  - apply Z.div_str_pos. split; [exact Hp|].
    apply Z.le_trans with (2 ^ (Zdigits2 m - 1)); [|exact Hlo].
    apply Z.pow_le_mono_r; lia.
  - apply Z.div_lt_upper_bound; [exact Hp|].
    rewrite <- pow2_split by lia.
    apply Z.lt_le_trans with (2 ^ Zdigits2 m); [exact Hhi|].
    apply Z.pow_le_mono_r; lia.
  - intros Hes. assert (He : e <= -46) by lia.
    specialize (Hbound He).
    apply Z.div_le_lower_bound; [exact Hp|].
    replace (-46 - e) with (B64.shift m e + (-46 - (e + B64.shift m e))) in Hbound
      by lia.
    rewrite pow2_split in Hbound by lia. nia.
Qed.

(** A finished number of value above 91, with a mantissa of at most 53
    bits, is above 91. *)
Lemma finish_gt_91 (m e : Z) :
  0 < m -> m < 2 ^ 53 ->
  (e <= -46 -> (B64.m91 + 1) * 2 ^ (-46 - e) <= m) ->
  SFltb B64.f91 (B64.finish false m e) = true.
Proof.
  intros Hm H53 Hbound. unfold B64.finish.
  change (2 ^ 53) with 9007199254740992 in H53. unfold B64.m91 in Hbound.
  destruct m as [|p|p]; [lia| |lia].
  destruct (e <=? B64.emax - B64.prec); [|reflexivity].
  unfold SFltb, B64.f91. cbn [SFcompare].
  destruct (Z.compare_spec (-46) e) as [Heq|Hlt|Hgt]; [|reflexivity|].
  - subst e. specialize (Hbound ltac:(lia)).
    change (-46 - -46) with 0 in Hbound. rewrite Z.pow_0_r in Hbound.
    change (Pos.compare_cont Eq 6403555720167424 p)
      with (6403555720167424 ?= Zpos p).
    destruct (Z.compare_spec 6403555720167424 (Zpos p)); try reflexivity; lia.
  - exfalso. specialize (Hbound ltac:(lia)).
    assert (H2 : 2 ^ 1 <= 2 ^ (-46 - e)) by (apply Z.pow_le_mono_r; lia).
    change (2 ^ 1) with 2 in H2.
    remember (2 ^ (-46 - e)) as x. lia.
Qed.

(** Rounding a number of value at least the double that follows 91 gives a
    number above 91. *)
Lemma binary_round_aux_above_91 (m e : Z) (l : location) :
  0 < m ->
  (e <= -46 -> (B64.m91 + 1) * 2 ^ (-46 - e) <= m) ->
  SFltb B64.f91 (binary_round_aux B64.prec B64.emax false m e l) = true.
Proof.
  intros Hm Hbound.
  destruct (binary_round_aux_spec false m e l ltac:(lia)) as (m2 & Hm2 & ->).
  destruct (shift_gt_91 m e Hm Hbound) as (Hpos1 & _ & Hb1).
  assert (Hpos2 : 0 < m2) by lia.
  assert (Hb2 : e + B64.shift m e <= -46 ->
                (B64.m91 + 1) * 2 ^ (-46 - (e + B64.shift m e)) <= m2)
    by (intros H; specialize (Hb1 H); lia).
  destruct (shift_gt_91 m2 (e + B64.shift m e) Hpos2 Hb2) as (Hpos3 & H53 & Hb3).
  apply finish_gt_91; assumption.
Qed.

Lemma shl_align_spec (p : positive) (e e' : Z) :
  snd (shl_align p e e') = Z.min e e'
  /\ Zpos (fst (shl_align p e e')) = Zpos p * 2 ^ (e - Z.min e e').
Proof.
  unfold shl_align. destruct (e' - e) as [|d|d] eqn:Hd; cbn [fst snd].
  - replace (Z.min e e') with e by lia. rewrite Z.sub_diag. split; lia.
  - replace (Z.min e e') with e by lia. rewrite Z.sub_diag. split; lia.
  - replace (Z.min e e') with e' by lia.
    replace (e - e') with (Zpos d) by lia.
    split; [reflexivity|apply iter_xO_pow].
Qed.

Lemma binary_round_below_91 (p : positive) (e : Z) :
  e <= -46 -> Zpos p < B64.m91 * 2 ^ (-46 - e) ->
  SFltb B64.f91 (binary_round B64.prec B64.emax false p e) = false.
Proof.
  intros He Hp. unfold binary_round.
  destruct (shl_align_spec p e
              (fexp B64.prec B64.emax (Zpos (digits2_pos p) + e)))
    as [Hez Hmz].
  destruct (shl_align p e _) as [mz ez]. cbn [fst snd] in Hez, Hmz.
  assert (Hle : ez <= e) by lia.
  apply binary_round_aux_below_91; [lia|].
  split; [lia|]. rewrite Hmz, <- Hez.
  replace (-46 - ez) with ((-46 - e) + (e - ez)) by lia.
  rewrite pow2_split by lia.
  pose proof (pow2_pos (e - ez) ltac:(lia)). nia.
Qed.

Lemma binary_round_above_91 (p : positive) (e : Z) :
  e <= -46 -> (B64.m91 + 1) * 2 ^ (-46 - e) <= Zpos p ->
  SFltb B64.f91 (binary_round B64.prec B64.emax false p e) = true.
Proof.
  intros He Hp. unfold binary_round.
  destruct (shl_align_spec p e
              (fexp B64.prec B64.emax (Zpos (digits2_pos p) + e)))
    as [Hez Hmz].
  destruct (shl_align p e _) as [mz ez]. cbn [fst snd] in Hez, Hmz.
  assert (Hle : ez <= e) by lia.
  apply binary_round_aux_above_91; [lia|]. intros _.
  rewrite Hmz, <- Hez.
  replace (-46 - ez) with ((-46 - e) + (e - ez)) by lia.
  rewrite pow2_split by lia.
  pose proof (pow2_pos (e - ez) ltac:(lia)). nia.
Qed.

(** [91 - y] for a finite [y], as a rounded integer. *)
Lemma sub_91_finite (sy : bool) (my : positive) (ey : Z) :
  let ez := Z.min (-46) ey in
  SFsub B64.prec B64.emax B64.f91 (S754_finite sy my ey)
  = binary_normalize B64.prec B64.emax
      (B64.m91 * 2 ^ (-46 - ez) - cond_Zopp sy (Zpos my * 2 ^ (ey - ez)))
      ez false.
Proof.
  intros ez. unfold B64.f91. cbn [SFsub cond_Zopp]. fold ez.
  destruct (shl_align_spec 6403555720167424 (-46) ez) as [_ H91].
  destruct (shl_align_spec my ey ez) as [_ Hy].
  replace (Z.min (-46) ez) with ez in H91 by (subst ez; lia).
  replace (Z.min ey ez) with ez in Hy by (subst ez; lia).
  rewrite H91, Hy. reflexivity.
Qed.

(** Rounding never gives NaN. *)
Lemma binary_round_aux_not_nan (sx : bool) (m e : Z) (l : location) :
  0 <= m -> binary_round_aux B64.prec B64.emax sx m e l <> S754_nan.
Proof.
  intros Hm.
  destruct (binary_round_aux_spec sx m e l Hm) as (m2 & Hm2 & ->).
  assert (H1 : 0 <= m / 2 ^ B64.shift m e)
    by (apply Z.div_pos; [exact Hm|apply pow2_pos, shift_nonneg]).
  assert (H3 : 0 <= m2 / 2 ^ B64.shift m2 (e + B64.shift m e))
    by (apply Z.div_pos; [lia|apply pow2_pos, shift_nonneg]).
  unfold B64.finish. destruct (m2 / 2 ^ B64.shift m2 (e + B64.shift m e)); [| |lia].
  - discriminate.
  - destruct (_ <=? _); discriminate.
Qed.

Lemma binary_normalize_not_nan (m e : Z) (szero : bool) :
  binary_normalize B64.prec B64.emax m e szero <> S754_nan.
Proof.
  unfold binary_normalize, binary_round.
  destruct m as [|q|q]; [discriminate| |];
    destruct (shl_align q e _) as [mz ez];
    apply binary_round_aux_not_nan; lia.
Qed.

(** Without a NaN operand, the transformed altitude is not NaN. *)
Lemma sub_91_not_nan (y : spec_float) :
  SFsub B64.prec B64.emax B64.f91 y = S754_nan -> y = S754_nan.
Proof.
  destruct y as [sy|sy| |sy my ey]; try discriminate; [reflexivity|].
  rewrite sub_91_finite. cbv zeta. intros H.
  exfalso. exact (binary_normalize_not_nan _ _ _ H).
Qed.

(** [91 - y] is not above 91 when [y] is positive. *)
Lemma sub_91_positive (my : positive) (ey : Z) :
  SFltb B64.f91 (SFsub B64.prec B64.emax B64.f91 (S754_finite false my ey)) = false.
Proof.
  rewrite sub_91_finite. cbv zeta. cbn [cond_Zopp].
  set (ez := Z.min (-46) ey).
  assert (Hez : ez <= -46) by (subst ez; lia).
  pose proof (pow2_pos (ey - ez) ltac:(subst ez; lia)) as Hy.
  unfold binary_normalize.
  destruct (B64.m91 * 2 ^ (-46 - ez) - Zpos my * 2 ^ (ey - ez)) as [|q|q] eqn:Hz.
  - reflexivity.
  - apply binary_round_below_91; [exact Hez|]. nia.
  - unfold binary_round. destruct (shl_align q ez _) as [mz e'].
    pose proof (binary_round_aux_sign true (Zpos mz) e' loc_Exact) as Hs.
    destruct (binary_round_aux _ _ true (Zpos mz) e' loc_Exact)
      as [s|s| |s m e]; try subst s; reflexivity.
Qed.

(** [91 - y] is above 91 when [y] is negative and of magnitude at least
    [2^-46]. *)
Lemma sub_91_negative (my : positive) (ey : Z) :
  2 ^ (-46 - Z.min (-46) ey) <= Zpos my * 2 ^ (ey - Z.min (-46) ey) ->
  SFltb B64.f91 (SFsub B64.prec B64.emax B64.f91 (S754_finite true my ey)) = true.
Proof.
  intros Hy. rewrite sub_91_finite. cbv zeta. cbn [cond_Zopp].
  set (ez := Z.min (-46) ey) in *.
  assert (Hez : ez <= -46) by (subst ez; lia).
  pose proof (pow2_pos (-46 - ez) ltac:(lia)) as Hp.
  unfold binary_normalize.
  destruct (B64.m91 * 2 ^ (-46 - ez) - - (Zpos my * 2 ^ (ey - ez)))
    as [|q|q] eqn:Hz; [unfold B64.m91 in Hz; nia| |unfold B64.m91 in Hz; nia].
  apply binary_round_above_91; [exact Hez|]. rewrite <- Hz. nia.
Qed.

Lemma of_int_91 : of_int (F:=spec_float) 91 = B64.f91.
Proof. reflexivity. Qed.

(** In double precision a transformed altitude above 91 comes from a
    negative altitude. *)
Lemma b64_above_91_negative (a : spec_float) :
  fgt (fsub (of_int 91) a) (of_int 91) = true -> flt a (of_int 0) = true.
Proof.
  rewrite of_int_91. cbn [fgt fsub flt binary64]. unfold B64.gtb, B64.sub, B64.ltb.
  destruct a as [s|s| |s m e].
  - destruct s; discriminate.
  - destruct s; [reflexivity|discriminate].
  - discriminate.
  - destruct s; [reflexivity|].
    rewrite sub_91_positive. discriminate.
Qed.

(** In double precision a valid altitude of at most [-2^-46] degrees has a
    transformed altitude above 91. *)
Lemma b64_negative_above_91 (a : spec_float) :
  valid_binary B64.prec B64.emax a = true ->
  fle a (B64.ldexp (-1) (-46)) = true ->
  fgt (fsub (of_int 91) a) (of_int 91) = true.
Proof.
  rewrite of_int_91. cbn [fgt fsub fle binary64].
  unfold B64.gtb, B64.sub, B64.leb.
  change (B64.ldexp (-1) (-46)) with (S754_finite true 4503599627370496 (-98)).
  destruct a as [s|s| |s m e]; cbn [valid_binary].
  - destruct s; discriminate.
  - destruct s; [reflexivity|discriminate].
  - discriminate.
  - destruct s; [|discriminate].
    intros Hvalid Hle. apply sub_91_negative.
    unfold bounded, canonical_mantissa in Hvalid.
    apply andb_true_iff in Hvalid. destruct Hvalid as [Hcan _].
    apply Z.eqb_eq in Hcan. rewrite fexp_b64 in Hcan.
    pose proof (Zdigits2_pos_bounds m) as [Hlo _].
    unfold SFleb in Hle. cbn [SFcompare] in Hle.
    assert (He : -98 <= e).
    { destruct (Z.compare_spec e (-98)); solve [lia | discriminate]. }
    assert (Hd : Zpos (digits2_pos m) = 53) by lia.
    rewrite Hd in Hlo. change (2 ^ (53 - 1)) with 4503599627370496 in Hlo.
    destruct (Z_le_gt_dec (-46) e) as [Hbig|Hsmall].
    + replace (Z.min (-46) e) with (-46) by lia.
      change (-46 - -46) with 0. rewrite Z.pow_0_r.
      pose proof (pow2_pos (e - -46) ltac:(lia)). nia.
    + replace (Z.min (-46) e) with e by lia.
      rewrite Z.sub_diag, Z.pow_0_r, Z.mul_1_r.
      apply Z.le_trans with (2 ^ 52); [|exact Hlo].
      apply Z.pow_le_mono_r; lia.
Qed.

(** ** The horizon test without rounding *)

(** In exact arithmetic the transformed altitude is above 91 exactly when
    the altitude is below 0, and the mask is the negation of the loop's
    test. *)
Lemma exact_below_horizon_iff (s : AltAz Q) :
  (below_horizon s = true <-> (alt s < 0)%Q)
  /\ in_mask s = negb (below_horizon s).
Proof.
  unfold below_horizon, in_mask, radial.
  cbn [fgt fle fsub of_int exact]. unfold Exact.gtb.
  change (inject_Z 91) with 91%Q.
  split; [|rewrite negb_involutive; reflexivity].
  rewrite negb_true_iff, <- not_true_iff_false, Qle_bool_iff. split.
  - intros H. apply Qnot_le_lt in H. lra.
  - intros H. apply Qlt_not_le. lra.
Qed.

(** ** Below the horizon (C1, C2, C9) *)

(** In double precision the two tests agree on every sample whose altitude
    is not NaN. *)
Lemma b64_tests_agree (s : AltAz spec_float) :
  alt s <> B64.nan -> in_mask s = negb (below_horizon s).
Proof.
  intros Hs. unfold in_mask, below_horizon. apply b64_le_negb_gt.
  assert (Hr : radial s <> S754_nan).
  { intros H. apply Hs. apply sub_91_not_nan. exact H. }
  rewrite of_int_91. unfold B64.f91.
  destruct (radial s) as [sx|sx| |sx mx ex]; cbn [SFcompare];
    try discriminate; try (destruct sx; discriminate).
  congruence.
Qed.

(** C1, as [plot_sky] computes it in double precision.  When the observer
    answers with one entry per instant, no exception is raised; the run emits,
    in sample order, exactly one warning for each sample whose transformed
    altitude [91 - alt] is above 91 and none for any other sample, each
    warning naming the target (or Unknown Name) and the instant of its
    sample; the azimuths passed to [scatter] are those of the samples whose
    transformed altitude is not above 91 and the radii those of the samples
    whose transformed altitude is at most 91.  A sample above 91 has neither
    its azimuth nor its radius plotted, and on a sample whose altitude is not
    NaN the two tests are complementary.  A sample above 91 always has a
    negative altitude, and every altitude of [-2^-46] degrees or lower is
    above 91 once transformed; a sample at altitude exactly 0 (transformed
    altitude exactly 91) is plotted without a warning; when every sample is
    above 91 the plotted arrays are empty. *)
Theorem plot_sky_horizon_filter
        {Time Body : Type} (time_str : Time -> string)
        (float_str : spec_float -> string)
        fuel target observer time ax_arg style_kwargs north_to_east_ccw grid
        az_label_offset (w : World spec_float Time Body) frame :
  altaz observer (normalize_time time) target = inr frame ->
  List.length frame = List.length (normalize_time time) ->
  let r := plot_sky time_str float_str fuel target observer time ax_arg
                    style_kwargs north_to_east_ccw grid az_label_offset w in
  let theta :=
    map angular (filter (fun s => negb (fgt (radial s) (of_int 91))) frame) in
  let radius :=
    map radial (filter (fun s => fle (radial s) (of_int 91)) frame) in
  (forall e, fst r <> Raise e)
  /\ warnings (snd r)
     = warnings w
         ++ map (fun ts => horizon_msg time_str (target_name target) (fst ts))
              (filter (fun ts => fgt (radial (snd ts)) (of_int 91))
                 (combine (normalize_time time) frame))
  /\ (forall t,
        horizon_msg time_str (target_name target) t
        = ("Warning: Target " ++ Py.dquote
             ++ match name target with
                | Some (String c n) => String c n
                | _ => "Unknown Name"
                end
             ++ Py.dquote ++ " is below the horizon at time: "
             ++ time_str t)%string)
  /\ collections (ax (snd r))
     = collections (start_axes ax_arg w)
         ++ [mkScatter theta radius (resolved_style style_kwargs target)]
  /\ (forall s : AltAz spec_float,
        fgt (radial s) (of_int 91) = true ->
        fle (radial s) (of_int 91) = false)
  /\ (forall s : AltAz spec_float,
        alt s <> B64.nan ->
        fle (radial s) (of_int 91) = negb (fgt (radial s) (of_int 91)))
  /\ (forall s : AltAz spec_float,
        fgt (radial s) (of_int 91) = true -> flt (alt s) (of_int 0) = true)
  /\ (forall s : AltAz spec_float,
        valid_binary B64.prec B64.emax (alt s) = true ->
        fle (alt s) (B64.ldexp (-1) (-46)) = true ->
        fgt (radial s) (of_int 91) = true)
  /\ (forall (s : AltAz spec_float) sign,
        alt s = S754_zero sign ->
        radial s = of_int 91
        /\ fgt (radial s) (of_int 91) = false
        /\ fle (radial s) (of_int 91) = true)
  /\ (Forall (fun s => fgt (radial s) (of_int 91) = true) frame ->
      theta = [] /\ radius = []).
Proof.
  intros Hobs Hlen r theta radius.
  pose proof (plot_sky_run time_str float_str fuel target observer time ax_arg
                style_kwargs north_to_east_ccw grid az_label_offset w frame
                Hobs Hlen) as Hrun.
  cbv zeta in Hrun. fold r in Hrun.
  assert (Hgt : forall s : AltAz spec_float,
             fgt (radial s) (of_int 91) = true ->
             fle (radial s) (of_int 91) = false)
    by (intros s; apply b64_gt_not_le).
  repeat split.
  - intros e He. rewrite Hrun in He.
    destruct (theta_labels float_str fuel az_label_offset); discriminate.
  - rewrite Hrun.
    destruct (theta_labels float_str fuel az_label_offset); reflexivity.
  - intros t. unfold horizon_msg, target_name.
    destruct (name target) as [[|c n]|]; reflexivity.
  - rewrite Hrun.
    destruct (theta_labels float_str fuel az_label_offset); reflexivity.
  - exact Hgt.
  - exact b64_tests_agree.
  - intros s. apply b64_above_91_negative.
  - intros s. apply b64_negative_above_91.
  - destruct s as [a z]; cbn [alt] in *; subst a; destruct sign; reflexivity.
  - destruct s as [a z]; cbn [alt] in *; subst a; destruct sign; reflexivity.
  - destruct s as [a z]; cbn [alt] in *; subst a; destruct sign; reflexivity.
  - subst theta. rewrite filter_all_false; [reflexivity|].
    revert H. apply Forall_impl. intros s Hs. rewrite Hs. reflexivity.
  - subst radius. rewrite filter_all_false; [reflexivity|].
    revert H. apply Forall_impl. intros s Hs. exact (Hgt s Hs).
Qed.

(** A run of the filter over three instants: the target at
    altitude 45, then 0, then -10 degrees.  Only the last sample is warned
    about and left out. *)
Lemma plot_sky_horizon_filter_witness :
  let frame := [Demo.deg 45 0; Demo.deg 0 90; Demo.deg (-10) 180] in
  let times := ["20:00"; "20:30"; "21:00"]%string in
  altaz (Demo.seeing frame) times Demo.vega = inr frame
  /\ List.length frame = List.length times
  /\ warnings (snd (Demo.run (Demo.seeing frame) times))
     = [("Warning: Target " ++ Py.dquote ++ "Vega" ++ Py.dquote
           ++ " is below the horizon at time: 21:00")%string]
  /\ map sc_r (collections (ax (snd (Demo.run (Demo.seeing frame) times))))
     = [[of_int 46; of_int 91]].
Proof.
  intros frame times.
  split; [reflexivity|]. split; [reflexivity|].
  destruct (plot_sky_horizon_filter Demo.time_str Demo.float_str 8 Demo.vega
              (Demo.seeing frame) (ArrayTime times) None None true true
              (of_int 0) Demo.world0 frame eq_refl eq_refl)
    as (_ & Hw & _ & Hc & _).
  split.
  - exact Hw.
  - exact (f_equal (map sc_r) Hc).
Defined.

(** C1 fails as the spec words it: a sample at altitude [-2^-60] degrees is
    strictly below 0, but [91 - alt] rounds to exactly 91, so the sample is
    plotted at radius 91 and no warning is emitted. *)
Lemma horizon_filter_counterexample :
  let r := Demo.run (Demo.seeing [Demo.barely_below]) ["20:00"%string] in
  flt (alt Demo.barely_below) (of_int 0) = true
  /\ fst r <> Hang
  /\ warnings (snd r) = []
  /\ map sc_theta (collections (ax (snd r))) = [[of_int 0]]
  /\ map sc_r (collections (ax (snd r))) = [[of_int 91]].
Proof.
  vm_compute. repeat split; try reflexivity. discriminate.
Qed.

(** C2: when the observer answers with one entry per instant, the radii
    passed to [scatter] are [91 - alt] for the samples kept by the mask and
    the angles are [az * (np.pi / 180.0)] for the samples kept by the loop,
    in sample order.  In double precision altitude 90 gives radius 1,
    altitude 0 gives radius 91, and the factor [np.pi / 180.0] is the double
    [0.017453292519943295]. *)
Theorem plot_sky_polar_coordinates
        {Time Body : Type} (time_str : Time -> string)
        (float_str : spec_float -> string)
        fuel target observer time ax_arg style_kwargs north_to_east_ccw grid
        az_label_offset (w : World spec_float Time Body) frame :
  altaz observer (normalize_time time) target = inr frame ->
  List.length frame = List.length (normalize_time time) ->
  let r := plot_sky time_str float_str fuel target observer time ax_arg
                    style_kwargs north_to_east_ccw grid az_label_offset w in
  (exists sc,
      collections (ax (snd r)) = collections (start_axes ax_arg w) ++ [sc]
      /\ sc_r sc
         = map (fun s => fsub (of_int 91) (alt s)) (filter in_mask frame)
      /\ sc_theta sc
         = map (fun s => fmul (az s) (fdiv np_pi (of_int 180)))
             (filter (fun s => negb (below_horizon s)) frame))
  /\ fsub (of_int 91) (of_int 90) = B64.of_Z 1
  /\ fsub (of_int 91) (of_int 0) = B64.of_Z 91
  /\ fdiv np_pi (of_int 180) = B64.ldexp 5030569068109113 (-58).
Proof.
  intros Hobs Hlen r.
  pose proof (plot_sky_run time_str float_str fuel target observer time ax_arg
                style_kwargs north_to_east_ccw grid az_label_offset w frame
                Hobs Hlen) as Hrun.
  cbv zeta in Hrun. fold r in Hrun.
  split; [|repeat split; reflexivity].
  eexists. rewrite Hrun.
  destruct (theta_labels float_str fuel az_label_offset);
    (split; [reflexivity|split; reflexivity]).
Qed.

(** A run with the target at the zenith, then on the horizon due east. *)
Lemma plot_sky_polar_coordinates_witness :
  let frame := [Demo.deg 90 0; Demo.deg 0 90] in
  let times := ["20:00"; "20:30"]%string in
  altaz (Demo.seeing frame) times Demo.vega = inr frame
  /\ List.length frame = List.length times
  /\ exists sc,
      collections (ax (snd (Demo.run (Demo.seeing frame) times))) = [sc]
      /\ sc_r sc = [of_int 1; of_int 91]
      /\ sc_theta sc = [of_int 0; B64.ldexp 7074237752028440 (-52)].
Proof.
  intros frame times.
  split; [reflexivity|]. split; [reflexivity|].
  destruct (plot_sky_polar_coordinates Demo.time_str Demo.float_str 8 Demo.vega
              (Demo.seeing frame) (ArrayTime times) None None true true
              (of_int 0) Demo.world0 frame eq_refl eq_refl)
    as ((sc & Hc & Hr & Ht) & _).
  exists sc. split; [exact Hc|]. split; [exact Hr | exact Ht].
Defined.

(** On a frame in which the two tests agree on every sample, the plotted
    azimuths and radii have the same length and pair up sample by sample, in
    sample order. *)
Lemma plotted_pairs_aligned {F : Type} {A : Arith F} (frame : list (AltAz F)) :
  Forall (fun s => in_mask s = negb (below_horizon s)) frame ->
  let theta := map angular (filter (fun s => negb (below_horizon s)) frame) in
  let radius := map radial (filter in_mask frame) in
  List.length theta = List.length radius
  /\ combine theta radius
     = map (fun s => (angular s, radial s)) (filter in_mask frame).
Proof.
  intros Hall theta radius.
  assert (Hf : filter (fun s => negb (below_horizon s)) frame
               = filter in_mask frame).
  { apply filter_ext_in. intros s Hs.
    rewrite Forall_forall in Hall. symmetry. exact (Hall s Hs). }
  subst theta radius. rewrite Hf. split.
  - rewrite !length_map. reflexivity.
  - clear Hf Hall.
    induction (filter in_mask frame) as [|s l IH]; cbn [map combine].
    + reflexivity.
    + rewrite IH. reflexivity.
Qed.

(** In double precision, on a frame without a NaN altitude the plotted
    azimuths and radii have the same length and pair up sample by sample. *)
Lemma b64_plotted_pairs_aligned (frame : list (AltAz spec_float)) :
  Forall (fun s => alt s <> B64.nan) frame ->
  let theta := map angular (filter (fun s => negb (below_horizon s)) frame) in
  let radius := map radial (filter in_mask frame) in
  List.length theta = List.length radius
  /\ combine theta radius
     = map (fun s => (angular s, radial s)) (filter in_mask frame).
Proof.
  intros Hall. apply plotted_pairs_aligned.
  revert Hall. apply Forall_impl. exact b64_tests_agree.
Qed.

(** C9 fails on a frame with a NaN altitude.  The loop tests [> 91], which
    is false for NaN, and keeps the azimuth; the mask tests [<= 91], which is
    false too, and drops the radius: [scatter] receives one angle and no
    radius. *)
Theorem nan_altitude_unpairs_plot :
  let r := Demo.run (Demo.seeing [Demo.undefined]) ["20:00"%string] in
  warnings (snd r) = []
  /\ map sc_theta (collections (ax (snd r)))
     = [[B64.ldexp 7074237752028440 (-52)]]
  /\ map sc_r (collections (ax (snd r))) = [[]]
  /\ map (fun sc => List.length (sc_theta sc)) (collections (ax (snd r))) = [1%nat]
  /\ map (fun sc => List.length (sc_r sc)) (collections (ax (snd r))) = [0%nat].
Proof.
  vm_compute. repeat split.
Qed.

(** ** Queries of the observer (C4, C8) *)

Section Queries.
Context {F : Type} {A : Arith F} {Time Body : Type}.
Variable time_str : Time -> string.
Variable float_str : F -> string.

(** The loop over the samples does not query the observer, whatever its
    outcome. *)
Lemma horizon_loop_queries tname (time : list Time) altitude azimuth :
  forall idx az_plot (w : World F Time Body),
    altaz_calls
      (snd (horizon_loop time_str tname time altitude azimuth idx az_plot w))
    = altaz_calls w.
Proof.
  induction idx as [|i idx IH]; intros az_plot w; cbn [horizon_loop].
  - reflexivity.
  - unfold bind at 1, getitem at 1.
    destruct (nth_error altitude i) as [a|]; [|reflexivity].
    cbn [ret]. destruct (fgt a (of_int 91)).
    + unfold bind at 1, getitem at 1.
      destruct (nth_error time i) as [t|]; [|reflexivity].
      cbn [ret]. unfold bind at 1, warn at 1. rewrite IH. reflexivity.
    + unfold bind at 1, getitem at 1.
      destruct (nth_error azimuth i) as [z|]; [|reflexivity].
      cbn [ret]. apply IH.
Qed.

(** Once the first query has succeeded the observer is queried a second
    time with the same arguments, and never again. *)
Lemma plot_sky_queries fuel target observer time ax_arg style_kwargs
      north_to_east_ccw grid az_label_offset (w : World F Time Body) frame :
  altaz observer (normalize_time time) target = inr frame ->
  altaz_calls
    (snd (plot_sky time_str float_str fuel target observer time ax_arg
            style_kwargs north_to_east_ccw grid az_label_offset w))
  = altaz_calls w
      ++ [(normalize_time time, target); (normalize_time time, target)].
Proof.
  intros Hobs. unfold plot_sky.
  unfold bind at 1.
  replace (resolve_ax ax_arg w)
    with (Ret tt, mkWorld (start_axes ax_arg w) (warnings w) (altaz_calls w))
    by (destruct ax_arg, w; reflexivity).
  unfold bind at 1, call_altaz at 1. rewrite Hobs.
  cbn [ax warnings altaz_calls].
  unfold bind at 1, call_altaz at 1. rewrite Hobs.
  cbn [ax warnings altaz_calls].
  unfold bind at 1.
  match goal with
  | |- context [horizon_loop ?s ?n ?t ?al ?az ?idx ?acc ?w0] =>
      pose proof (horizon_loop_queries n t al az idx acc w0) as Hq;
      destruct (horizon_loop s n t al az idx acc w0) as [[r|e|] w1]
  end; cbn [snd altaz_calls] in Hq; rewrite <- app_assoc in Hq;
    cbn [app] in Hq.
  - destruct north_to_east_ccw, grid,
      (theta_labels float_str fuel az_label_offset);
      cbn; exact Hq.
  - exact Hq.
  - exact Hq.
Qed.
End Queries.

(** C4 as the code has it: whenever the observer answers the first query,
    [plot_sky] queries it exactly twice, each time with the whole array of
    instants and the target: once for the altitudes and once more for the
    azimuths. *)
Theorem plot_sky_queries_observer_twice
        {F : Type} {A : Arith F} {Time Body : Type}
        (time_str : Time -> string) (float_str : F -> string)
        fuel target observer time ax_arg style_kwargs north_to_east_ccw grid
        az_label_offset (w : World F Time Body) frame :
  altaz observer (normalize_time time) target = inr frame ->
  let r := plot_sky time_str float_str fuel target observer time ax_arg
                    style_kwargs north_to_east_ccw grid az_label_offset w in
  altaz_calls (snd r)
  = altaz_calls w
      ++ [(normalize_time time, target); (normalize_time time, target)].
Proof.
  intros Hobs r. subst r. apply plot_sky_queries with (frame := frame).
  exact Hobs.
Qed.

(** A run over two instants: two queries. *)
Lemma plot_sky_queries_observer_twice_witness :
  let frame := [Demo.deg 45 0; Demo.deg 30 90] in
  let times := ["20:00"; "20:30"]%string in
  altaz (Demo.seeing frame) times Demo.vega = inr frame
  /\ altaz_calls (snd (Demo.run (Demo.seeing frame) times))
     = [(times, Demo.vega); (times, Demo.vega)].
Proof.
  intros frame times. split; [reflexivity|].
  exact (plot_sky_queries_observer_twice Demo.time_str Demo.float_str 8
           Demo.vega (Demo.seeing frame) (ArrayTime times) None None true true
           (of_int 0) Demo.world0 frame eq_refl).
Defined.

(** C4 fails as the spec words it: a run over a single instant queries the
    observer two times, not once. *)
Lemma single_query_counterexample :
  let r := Demo.run (Demo.seeing [Demo.deg 45 0]) ["20:00"%string] in
  List.length (altaz_calls (snd r)) = 2%nat
  /\ List.length (altaz_calls (snd r)) <> 1%nat.
Proof.
  vm_compute. split; [reflexivity | discriminate].
Qed.

(** C8: when the observer's capability fails with [e], [plot_sky] ends with
    the same [e]; the observer has been queried once and not again, nothing
    has been drawn on the axes and no warning has been emitted. *)
Theorem plot_sky_propagates_observer_failure
        {F : Type} {A : Arith F} {Time Body : Type}
        (time_str : Time -> string) (float_str : F -> string)
        fuel target observer time ax_arg style_kwargs north_to_east_ccw grid
        az_label_offset (w : World F Time Body) e :
  altaz observer (normalize_time time) target = inl e ->
  let r := plot_sky time_str float_str fuel target observer time ax_arg
                    style_kwargs north_to_east_ccw grid az_label_offset w in
  fst r = Raise e
  /\ ax (snd r) = start_axes ax_arg w
  /\ collections (ax (snd r)) = collections (start_axes ax_arg w)
  /\ warnings (snd r) = warnings w
  /\ altaz_calls (snd r) = altaz_calls w ++ [(normalize_time time, target)].
Proof.
  intros Hobs r. subst r.
  rewrite (plot_sky_observer_fails time_str float_str fuel target observer
             time ax_arg style_kwargs north_to_east_ccw grid az_label_offset
             w e Hobs).
  repeat split.
Qed.

(** A run with a failing observer on an axes that already holds one
    point. *)
Lemma plot_sky_propagates_observer_failure_witness :
  let times := ["20:00"%string] in
  let r := plot_sky Demo.time_str Demo.float_str 8 Demo.vega Demo.blind
                    (ArrayTime times) (Some Demo.clockwise_axes) None
                    true true (of_int 0) Demo.world0 in
  altaz Demo.blind times Demo.vega
  = inl (ObserverError "unresolvable target")
  /\ fst r = Raise (ObserverError "unresolvable target")
  /\ collections (ax (snd r)) = collections Demo.clockwise_axes.
Proof.
  intros times r. split; [reflexivity|].
  destruct (plot_sky_propagates_observer_failure Demo.time_str Demo.float_str
              8 Demo.vega Demo.blind (ArrayTime times)
              (Some Demo.clockwise_axes) None true true (of_int 0) Demo.world0
              (ObserverError "unresolvable target") eq_refl)
    as (Hr & _ & Hc & _).
  split; [exact Hr | exact Hc].
Defined.

(** ** The time argument and the axes set-up (C5, C10, C6, C7) *)

(** C5: a scalar instant and the one-element array holding it give the same
    outcome and leave the same world: the same points, warnings, queries and
    axes. *)
Theorem plot_sky_scalar_time
        {F : Type} {A : Arith F} {Time Body : Type}
        (time_str : Time -> string) (float_str : F -> string)
        fuel target observer (t : Time) ax_arg style_kwargs north_to_east_ccw
        grid az_label_offset (w : World F Time Body) :
  plot_sky time_str float_str fuel target observer (ScalarTime t) ax_arg
           style_kwargs north_to_east_ccw grid az_label_offset w
  = plot_sky time_str float_str fuel target observer (ArrayTime [t]) ax_arg
             style_kwargs north_to_east_ccw grid az_label_offset w.
Proof. reflexivity. Qed.

(** C10: when the observer answers with one entry per instant, the run sets
    the zero location of the axes to N; it sets the direction to -1 when
    [north_to_east_ccw] is false and leaves the direction of the axes as it
    was when the flag is true, so an axes that was clockwise stays
    clockwise. *)
Theorem plot_sky_theta_direction
        {F : Type} {A : Arith F} {Time Body : Type}
        (time_str : Time -> string) (float_str : F -> string)
        fuel target observer time ax_arg style_kwargs north_to_east_ccw grid
        az_label_offset (w : World F Time Body) frame :
  altaz observer (normalize_time time) target = inr frame ->
  List.length frame = List.length (normalize_time time) ->
  let r := plot_sky time_str float_str fuel target observer time ax_arg
                    style_kwargs north_to_east_ccw grid az_label_offset w in
  theta_zero_location (ax (snd r)) = "N"%string
  /\ theta_direction (ax (snd r))
     = (if north_to_east_ccw
        then theta_direction (start_axes ax_arg w)
        else -1)
  /\ (north_to_east_ccw = true ->
      theta_direction (start_axes ax_arg w) = -1 ->
      theta_direction (ax (snd r)) = -1).
Proof.
  intros Hobs Hlen r.
  pose proof (plot_sky_run time_str float_str fuel target observer time ax_arg
                style_kwargs north_to_east_ccw grid az_label_offset w frame
                Hobs Hlen) as Hrun.
  cbv zeta in Hrun. fold r in Hrun.
  assert (Hdir : theta_direction (ax (snd r))
                 = if north_to_east_ccw
                   then theta_direction (start_axes ax_arg w)
                   else -1)
    by (rewrite Hrun;
        destruct (theta_labels float_str fuel az_label_offset); reflexivity).
  split; [|split].
  - rewrite Hrun.
    destruct (theta_labels float_str fuel az_label_offset); reflexivity.
  - exact Hdir.
  - intros Hccw Hcw. rewrite Hdir, Hccw. exact Hcw.
Qed.

(** An overlay with the default flag on an axes that an earlier call made
    clockwise. *)
Lemma plot_sky_theta_direction_witness :
  let frame := [Demo.deg 45 0] in
  let times := ["20:00"%string] in
  let r := plot_sky Demo.time_str Demo.float_str 8 Demo.vega
                    (Demo.seeing frame) (ArrayTime times)
                    (Some Demo.clockwise_axes) None true true (of_int 0)
                    Demo.world0 in
  altaz (Demo.seeing frame) times Demo.vega = inr frame
  /\ List.length frame = List.length times
  /\ theta_direction Demo.clockwise_axes = -1
  /\ theta_direction (ax (snd r)) = -1.
Proof.
  intros frame times r.
  split; [reflexivity|]. split; [reflexivity|]. split; [reflexivity|].
  destruct (plot_sky_theta_direction Demo.time_str Demo.float_str 8 Demo.vega
              (Demo.seeing frame) (ArrayTime times)
              (Some Demo.clockwise_axes) None true true (of_int 0)
              Demo.world0 frame eq_refl eq_refl) as (_ & _ & Hkeep).
  exact (Hkeep eq_refl eq_refl).
Defined.



(** ** Tick-label angles (C3) *)

Section LabelAngles.
Context {F : Type} {A : Arith F}.

(** The [while] loop only ends on an angle that fails the test [>= 360]. *)
Lemma wrap_360_exit (fuel : nat) :
  forall x a : F, wrap_360 fuel x = Some a -> fge a (of_int 360) = false.
Proof.
  induction fuel as [|fuel IH]; intros x a; cbn [wrap_360].
  - discriminate.
  - destruct (fge x (of_int 360)) eqn:Hx.
    + apply IH.
    + intros Ha. injection Ha as <-. exact Hx.
Qed.

(** An angle that fails the test is returned as it is. *)
Lemma wrap_360_unchanged (fuel : nat) (x a : F) :
  fge x (of_int 360) = false -> wrap_360 fuel x = Some a -> a = x.
Proof.
  destruct fuel as [|fuel]; cbn [wrap_360]; [discriminate|].
  intros ->. congruence.
Qed.
End LabelAngles.

(** In double precision the loop never ends on an infinite angle:
    [inf - 360.0] is [inf] again. *)
Lemma b64_wrap_360_infinity (fuel : nat) :
  wrap_360 fuel B64.inf = None.
Proof.
  induction fuel as [|fuel IH]; [reflexivity|exact IH].
Qed.


(** In double precision, for every offset of a whole number of degrees from
    0 to 359 the seven angles are computed with at most one subtraction and
    lie in [0, 360). *)
Lemma b64_whole_degree_offsets (offset : Z) :
  0 <= offset < 360 -> Demo.labels_in_range 2 offset = true.
Proof.
  intros Hoff.
  assert (Hall : forallb (Demo.labels_in_range 2) (Py.range 0 360 1) = true)
    by (vm_compute; reflexivity).
  rewrite forallb_forall in Hall. apply Hall.
  unfold Py.range. apply in_map_iff.
  exists (Z.to_nat offset). split; [lia|].
  apply in_seq. change (Z.to_nat ((360 - 0 + 1 - 1) / 1)) with 360%nat. lia.
Qed.

(** With an infinite offset no label is ever computed: the run hangs in
    the first [while] loop. *)
Lemma b64_theta_labels_infinite_offset (float_str : spec_float -> string)
      (fuel : nat) :
  theta_labels float_str fuel B64.inf = None.
Proof.
  unfold theta_labels. change (Py.range 0 7 1) with [0; 1; 2; 3; 4; 5; 6].
  cbn [theta_labels_loop]. unfold label_angle.
  change (fadd B64.inf (fmul (of_int 0) (of_int 45))) with B64.inf.
  rewrite b64_wrap_360_infinity. reflexivity.
Qed.

(** ** The label loop in double precision *)

(** *** Rounding below a bound *)

Lemma Zdigits2_unique (m n : Z) :
  0 < m -> 2 ^ (n - 1) <= m < 2 ^ n -> Zdigits2 m = n.
Proof.
  intros Hm [Hlo Hhi].
  destruct (Zdigits2_lower m Hm) as [Hlo' Hhi'].
  pose proof (Zdigits2_nonneg m) as Hd.
  assert (Hn : 0 < n).
  { destruct (Z_lt_le_dec 0 n) as [H|H]; [exact H|].
    exfalso.
    destruct (Z.eq_dec n 0) as [->|Hn0]; [change (2 ^ 0) with 1 in Hhi; lia|].
    rewrite Z.pow_neg_r in Hhi by lia. lia. }
  destruct (Z.lt_trichotomy (Zdigits2 m) n) as [H|[H|H]]; [|exact H|].
  - exfalso.
    assert (2 ^ Zdigits2 m <= 2 ^ (n - 1)) by (apply Z.pow_le_mono_r; lia).
    lia.
  - exfalso.
    assert (2 ^ n <= 2 ^ (Zdigits2 m - 1)) by (apply Z.pow_le_mono_r; lia).
    lia.
Qed.

Lemma digits_mul_pow2 (m k : Z) :
  0 < m -> 0 <= k -> Zdigits2 (m * 2 ^ k) = Zdigits2 m + k.
Proof.
  intros Hm Hk.
  destruct (Zdigits2_lower m Hm) as [Hlo Hhi].
  pose proof (pow2_pos k Hk) as Hp.
  assert (Hd : 1 <= Zdigits2 m).
  { destruct m as [|p|p]; cbn [Zdigits2]; lia. }
  apply Zdigits2_unique; [nia|].
  replace (Zdigits2 m + k - 1) with ((Zdigits2 m - 1) + k) by lia.
  rewrite !pow2_split by lia.
  remember (2 ^ k) as u. remember (2 ^ (Zdigits2 m - 1)) as a.
  remember (2 ^ Zdigits2 m) as b. nia.
Qed.

Lemma digits_le_bound (mB eB m e : Z) :
  0 <= mB < 2 ^ 53 -> e <= eB -> 0 <= m <= mB * 2 ^ (eB - e) ->
  Zdigits2 m <= 53 + (eB - e).
Proof.
  intros HB He [Hm Hle]. apply Zdigits2_upper; [lia|]. split; [exact Hm|].
  rewrite pow2_split by lia.
  pose proof (pow2_pos (eB - e) ltac:(lia)) as Hp.
  remember (2 ^ (eB - e)) as u. remember (2 ^ 53) as P in *. nia.
Qed.

Lemma shift_le_bound (mB eB m e : Z) :
  -1074 <= eB -> 0 <= mB < 2 ^ 53 -> e <= eB ->
  0 <= m <= mB * 2 ^ (eB - e) ->
  e + B64.shift m e <= eB
  /\ 0 <= m / 2 ^ B64.shift m e <= mB * 2 ^ (eB - (e + B64.shift m e)).
Proof.
  intros HeB HB He Hm.
  pose proof (digits_le_bound mB eB m e HB He Hm) as Hd.
  pose proof (shift_nonneg m e) as Hs.
  assert (Hes : e + B64.shift m e <= eB)
    by (unfold B64.shift in *; rewrite fexp_b64 in *; lia).
  split; [exact Hes|].
  pose proof (pow2_pos (B64.shift m e) Hs) as Hp.
  split; [apply Z.div_pos; lia|].
  apply Z.div_le_upper_bound; [exact Hp|].
  replace (eB - e) with (B64.shift m e + (eB - (e + B64.shift m e))) in Hm
    by lia.
  rewrite pow2_split in Hm by lia.
  remember (2 ^ B64.shift m e) as u.
  remember (2 ^ (eB - (e + B64.shift m e))) as v. nia.
Qed.

Lemma shift_lt_bound (mB eB m e : Z) :
  -1074 <= eB -> 0 <= mB < 2 ^ 53 -> e <= eB ->
  0 <= m < mB * 2 ^ (eB - e) ->
  e + B64.shift m e <= eB
  /\ 0 <= m / 2 ^ B64.shift m e < mB * 2 ^ (eB - (e + B64.shift m e)).
Proof.
  intros HeB HB He Hm.
  destruct (shift_le_bound mB eB m e HeB HB He ltac:(lia)) as [Hes [Hlo _]].
  pose proof (shift_nonneg m e) as Hs.
  pose proof (pow2_pos (B64.shift m e) Hs) as Hp.
  split; [exact Hes|]. split; [exact Hlo|].
  apply Z.div_lt_upper_bound; [exact Hp|].
  replace (eB - e) with (B64.shift m e + (eB - (e + B64.shift m e))) in Hm
    by lia.
  rewrite pow2_split in Hm by lia.
  remember (2 ^ B64.shift m e) as u.
  remember (2 ^ (eB - (e + B64.shift m e))) as v. nia.
Qed.

(** Rounding a number below [mB * 2^eB] gives a zero or a positive number
    that is at most [mB * 2^eB], at an exponent that is at most [eB]. *)
Lemma binary_round_aux_le_bound (sx : bool) (mB eB m e : Z) (l : location) :
  -1074 <= eB <= 971 -> 0 <= mB < 2 ^ 53 -> e <= eB ->
  0 <= m < mB * 2 ^ (eB - e) ->
  match binary_round_aux B64.prec B64.emax sx m e l with
  | S754_zero _ => True
  | S754_finite _ m3 e3 => e3 <= eB /\ Zpos m3 <= mB * 2 ^ (eB - e3)
  | _ => False
  end.
Proof.
  intros HeB HB He Hm.
  destruct (binary_round_aux_spec sx m e l ltac:(lia)) as (m2 & Hm2 & ->).
  destruct (shift_lt_bound mB eB m e ltac:(lia) HB He Hm) as [He1 Hm1].
  destruct (shift_le_bound mB eB m2 (e + B64.shift m e) ltac:(lia) HB He1
              ltac:(lia)) as [He3 Hm3].
  unfold B64.finish.
  destruct (m2 / 2 ^ B64.shift m2 (e + B64.shift m e)) as [|p|p];
    [exact I| |lia].
  replace (_ <=? B64.emax - B64.prec) with true
    by (symmetry; apply Z.leb_le; unfold B64.emax, B64.prec; lia).
  split; [exact He3|apply Hm3].
Qed.

Lemma binary_round_le_bound (sx : bool) (mB eB : Z) (p : positive) (e : Z) :
  -1074 <= eB <= 971 -> 0 <= mB < 2 ^ 53 -> e <= eB ->
  Zpos p < mB * 2 ^ (eB - e) ->
  match binary_round B64.prec B64.emax sx p e with
  | S754_zero _ => True
  | S754_finite _ m3 e3 => e3 <= eB /\ Zpos m3 <= mB * 2 ^ (eB - e3)
  | _ => False
  end.
Proof.
  intros HeB HB He Hp. unfold binary_round.
  destruct (shl_align_spec p e
              (fexp B64.prec B64.emax (Zpos (digits2_pos p) + e)))
    as [Hez Hmz].
  destruct (shl_align p e _) as [mz ez]. cbn [fst snd] in Hez, Hmz.
  assert (Hle : ez <= e) by lia.
  apply binary_round_aux_le_bound; [exact HeB|exact HB|lia|].
  split; [lia|]. rewrite Hmz, <- Hez.
  replace (eB - ez) with ((eB - e) + (e - ez)) by lia.
  rewrite pow2_split by lia.
  pose proof (pow2_pos (e - ez) ltac:(lia)).
  remember (2 ^ (e - ez)) as u. remember (2 ^ (eB - e)) as v. nia.
Qed.

(** *** Rounding gives a number in canonical form *)

Lemma binary_round_aux_normal (sx : bool) (m e : Z) (l : location) :
  0 < m -> 53 <= Zdigits2 m -> -1074 <= Zdigits2 m + e - 53 ->
  match binary_round_aux B64.prec B64.emax sx m e l with
  | S754_finite s m3 e3 =>
      s = sx /\ 2 ^ 52 <= Zpos m3 < 2 ^ 53 /\ -1074 <= e3 <= 971
  | S754_infinity s => s = sx
  | _ => False
  end.
Proof.
  intros Hm Hd Hn.
  destruct (binary_round_aux_spec sx m e l ltac:(lia)) as (m2 & Hm2 & ->).
  destruct (Zdigits2_lower m Hm) as [Hlo Hhi].
  set (d := Zdigits2 m) in *.
  assert (Hs1 : B64.shift m e = d - 53)
    by (unfold B64.shift; rewrite fexp_b64; fold d; lia).
  rewrite Hs1 in *.
  pose proof (pow2_pos (d - 53) ltac:(lia)) as Hp.
  assert (Hm1 : 2 ^ 52 <= m / 2 ^ (d - 53) < 2 ^ 53).
  { split.
    - apply Z.div_le_lower_bound; [exact Hp|].
      rewrite <- pow2_split by lia.
      replace (d - 53 + 52) with (d - 1) by lia. exact Hlo.
    - apply Z.div_lt_upper_bound; [exact Hp|].
      rewrite <- pow2_split by lia.
      replace (d - 53 + 53) with d by lia. exact Hhi. }
  set (e1 := e + (d - 53)) in *.
  assert (H52 : 0 < 2 ^ 52) by (apply pow2_pos; lia).
  assert (Hm2pos : 0 < m2) by lia.
  destruct (Z_lt_le_dec m2 (2 ^ 53)) as [Hlt|Hge].
  - assert (Hd2 : Zdigits2 m2 = 53)
      by (apply Zdigits2_unique; [exact Hm2pos|]; change (53 - 1) with 52; lia).
    assert (Hs3 : B64.shift m2 e1 = 0)
      by (unfold B64.shift; rewrite fexp_b64, Hd2; lia).
    rewrite Hs3, Z.pow_0_r, Z.div_1_r, Z.add_0_r.
    unfold B64.finish. destruct m2 as [|p|p]; [lia| |lia].
    unfold B64.emax, B64.prec. change (1024 - 53) with 971.
    destruct (Z.leb_spec e1 971); [|reflexivity].
    repeat split; lia.
  - assert (Heq : m2 = 2 ^ 53) by lia.
    assert (Hd2 : Zdigits2 m2 = 54) by (rewrite Heq; reflexivity).
    assert (Hs3 : B64.shift m2 e1 = 1)
      by (unfold B64.shift; rewrite fexp_b64, Hd2; lia).
    rewrite Hs3, Heq.
    change (2 ^ 53 / 2 ^ 1) with (2 ^ 52).
    unfold B64.finish.
    change (2 ^ 52) with 4503599627370496 at 1.
    unfold B64.emax, B64.prec. change (1024 - 53) with 971.
    destruct (Z.leb_spec (e1 + 1) 971); [|reflexivity].
    split; [reflexivity|]. split; [|lia].
    split; [vm_compute; discriminate|vm_compute; reflexivity].
Qed.

Lemma binary_round_normal (sx : bool) (p : positive) (e : Z) :
  -1074 <= Zdigits2 (Zpos p) + e - 53 ->
  match binary_round B64.prec B64.emax sx p e with
  | S754_finite s m3 e3 =>
      s = sx /\ 2 ^ 52 <= Zpos m3 < 2 ^ 53 /\ -1074 <= e3 <= 971
  | S754_infinity s => s = sx
  | _ => False
  end.
Proof.
  intros Hn. unfold binary_round.
  destruct (shl_align_spec p e
              (fexp B64.prec B64.emax (Zpos (digits2_pos p) + e)))
    as [Hez Hmz].
  destruct (shl_align p e _) as [mz ez]. cbn [fst snd] in Hez, Hmz.
  rewrite <- Hez in Hmz. rewrite fexp_b64 in Hez.
  change (Zpos (digits2_pos p)) with (Zdigits2 (Zpos p)) in Hez.
  assert (Hle : ez <= e) by lia.
  assert (Hdz : Zdigits2 (Zpos mz) = Zdigits2 (Zpos p) + (e - ez)).
  { rewrite Hmz. apply digits_mul_pow2; lia. }
  apply binary_round_aux_normal; [lia|lia|lia].
Qed.

(** *** Canonical form and comparison *)

Lemma bounded_bounds (m : positive) (e : Z) :
  bounded B64.prec B64.emax m e = true ->
  Zpos m < 2 ^ 53 /\ -1074 <= e <= 971 /\ (-1074 < e -> 2 ^ 52 <= Zpos m).
Proof.
  unfold bounded, canonical_mantissa. intros H.
  apply andb_prop in H. destruct H as [Hc He].
  apply Z.eqb_eq in Hc. apply Z.leb_le in He.
  rewrite fexp_b64 in Hc. unfold B64.emax, B64.prec in He.
  destruct (Zdigits2_pos_bounds m) as [Hlo Hhi].
  assert (Hd : Zpos (digits2_pos m) <= 53) by lia.
  split; [|split; [lia|]].
  - apply Z.lt_le_trans with (2 ^ Zpos (digits2_pos m)); [exact Hhi|].
    apply Z.pow_le_mono_r; lia.
  - intros Hn. assert (Heq : Zpos (digits2_pos m) = 53) by lia.
    rewrite Heq in Hlo. exact Hlo.
Qed.

Lemma normal_bounded (m : positive) (e : Z) :
  2 ^ 52 <= Zpos m < 2 ^ 53 -> -1074 <= e <= 971 ->
  bounded B64.prec B64.emax m e = true.
Proof.
  intros Hm He. unfold bounded, canonical_mantissa.
  apply andb_true_intro. split.
  - apply Z.eqb_eq. rewrite fexp_b64.
    change (Zpos (digits2_pos m)) with (Zdigits2 (Zpos m)).
    rewrite (Zdigits2_unique (Zpos m) 53) by (change (53 - 1) with 52; lia).
    lia.
  - apply Z.leb_le. unfold B64.emax, B64.prec. lia.
Qed.

Lemma of_int_360 : of_int (F:=spec_float) 360 = B64.f360.
Proof. reflexivity. Qed.

Lemma of_int_0 : of_int (F:=spec_float) 0 = S754_zero false.
Proof. reflexivity. Qed.

(** [360 <= x] for a positive finite [x], read off its two fields. *)
Lemma leb_360_finite (m : positive) (e : Z) :
  SFleb B64.f360 (S754_finite false m e) = true
  <-> -44 < e \/ (e = -44 /\ B64.m360 <= Zpos m).
Proof.
  unfold SFleb, B64.f360, B64.m360. cbn [SFcompare].
  destruct (Z.compare_spec (-44) e) as [Heq|Hlt|Hgt].
  - subst e.
    change (Pos.compare_cont Eq 6333186975989760 m)
      with (6333186975989760 ?= Zpos m).
    destruct (Z.compare_spec 6333186975989760 (Zpos m)) as [H|H|H];
      split; intros H'; try reflexivity; try discriminate;
      try (right; split; [reflexivity|]; rewrite ?H; lia).
    destruct H' as [H'|[_ H']]; [lia|]. exfalso. revert H H'.
    generalize (Zpos m). intros z H H'.
    apply (Z.lt_irrefl z). eapply Z.lt_le_trans; eassumption.
  - split; [intros _; left; exact Hlt|reflexivity].
  - split; [discriminate|]. intros [H|[H _]]; lia.
Qed.

(** A number that is not negative and fails [360 <= a] is in [0, 360). *)
Lemma nonneg_below_360 (a : spec_float) :
  B64.nonneg a = true ->
  fge a (of_int 360) = false ->
  fle (of_int 0) a = true /\ flt a (of_int 360) = true.
Proof.
  rewrite of_int_360, of_int_0. cbn [fge fle flt binary64].
  unfold B64.geb, B64.leb, B64.ltb, SFleb, SFltb.
  rewrite (SFcompare_antisym a B64.f360).
  destruct a as [s|s| |s m e]; cbn [B64.nonneg]; try discriminate.
  - intros _ _. split; reflexivity.
  - destruct s; [discriminate|]. intros _. discriminate.
  - destruct s; [discriminate|]. intros _.
    destruct (SFcompare (S754_finite false m e) B64.f360) as [[| |]|] eqn:Hc;
      cbn [option_map CompOpp]; try discriminate;
      intros _; split; reflexivity.
Qed.

(** *** Subtracting 360 *)

Lemma sub_360_finite (mx : positive) (ex : Z) :
  -44 <= ex ->
  SFsub B64.prec B64.emax (S754_finite false mx ex) B64.f360
  = binary_normalize B64.prec B64.emax
      (Zpos mx * 2 ^ (ex + 44) - B64.m360) (-44) false.
Proof.
  intros He. unfold B64.f360, B64.m360. cbn [SFsub cond_Zopp].
  replace (Z.min ex (-44)) with (-44) by lia.
  destruct (shl_align_spec mx ex (-44)) as [_ Hx].
  destruct (shl_align_spec 6333186975989760 (-44) (-44)) as [_ Hy].
  replace (Z.min ex (-44)) with (-44) in Hx by lia.
  rewrite Hx, Hy.
  replace (ex - -44) with (ex + 44) by lia.
  reflexivity.
Qed.

(** One turn of the loop on a positive number in canonical form that
    passes the test: the difference is again not negative; below [2^61] it
    is strictly smaller. *)
Lemma sub_360_step (mx : positive) (ex : Z) :
  bounded B64.prec B64.emax mx ex = true ->
  SFleb B64.f360 (S754_finite false mx ex) = true ->
  let x := S754_finite false mx ex in
  let y := SFsub B64.prec B64.emax x B64.f360 in
  B64.nonneg y = true
  /\ (ex <= 8 -> B64.small y = true /\ B64.scaled y < B64.scaled x).
Proof.
  intros Hval Hge x y.
  destruct (bounded_bounds mx ex Hval) as (Hhi & Hex & Hlo).
  apply leb_360_finite in Hge.
  assert (He : -44 <= ex) by lia.
  specialize (Hlo ltac:(lia)).
  subst y x. rewrite (sub_360_finite mx ex He).
  pose proof (pow2_pos (ex + 44) ltac:(lia)) as Hp.
  assert (H360 : 2 ^ 52 < B64.m360 < 2 ^ 53) by (vm_compute; split; reflexivity).
  assert (HM : 0 <= Zpos mx * 2 ^ (ex + 44) - B64.m360).
  { destruct Hge as [Hgt|[Heq Hm]].
    - assert (2 ^ 1 <= 2 ^ (ex + 44)) by (apply Z.pow_le_mono_r; lia).
      change (2 ^ 1) with 2 in *.
      remember (2 ^ (ex + 44)) as u. remember (2 ^ 52) as a in *.
      remember (2 ^ 53) as b in *.
      assert (b = 2 * a) by (subst a b; reflexivity). nia.
    - subst ex. change (2 ^ (-44 + 44)) with 1. lia. }
  unfold binary_normalize.
  destruct (Zpos mx * 2 ^ (ex + 44) - B64.m360) as [|q|q] eqn:HMq; [| |lia].
  - split; [reflexivity|]. intros _. split; [reflexivity|].
    cbn [B64.scaled]. pose proof (pow2_pos (ex + 1074) ltac:(lia)). lia.
  - pose proof (binary_round_normal false q (-44)
                  ltac:(pose proof (Zdigits2_lower (Zpos q) ltac:(lia));
                        assert (1 <= Zdigits2 (Zpos q))
                          by (cbn [Zdigits2]; lia); lia)) as Hn.
    destruct (binary_round B64.prec B64.emax false q (-44))
      as [s|s| |s m3 e3] eqn:Hr; try contradiction.
    + subst s. split; [reflexivity|]. intros He8. exfalso.
      pose proof (binary_round_le_bound false (Zpos mx - 1) ex q (-44)
                    ltac:(lia) ltac:(lia) ltac:(lia)) as Hb.
      rewrite Hr in Hb. apply Hb.
      replace (ex - -44) with (ex + 44) by lia.
      assert (2 ^ (ex + 44) <= 2 ^ 52) by (apply Z.pow_le_mono_r; lia).
      remember (2 ^ (ex + 44)) as u. remember (2 ^ 52) as a in *. nia.
    + destruct Hn as (-> & Hm3 & He3).
      pose proof (normal_bounded m3 e3 Hm3 He3) as Hv3.
      split; [cbn [B64.nonneg negb andb]; exact Hv3|].
      intros He8.
      pose proof (binary_round_le_bound false (Zpos mx - 1) ex q (-44)
                    ltac:(lia) ltac:(lia) ltac:(lia)) as Hb.
      rewrite Hr in Hb. destruct Hb as [Hle Hval3].
      { replace (ex - -44) with (ex + 44) by lia.
        assert (2 ^ (ex + 44) <= 2 ^ 52) by (apply Z.pow_le_mono_r; lia).
        remember (2 ^ (ex + 44)) as u. remember (2 ^ 52) as a in *. nia. }
      split.
      * cbn [B64.small]. rewrite Hv3. apply Z.leb_le. lia.
      * cbn [B64.scaled].
        replace (ex + 1074) with ((ex - e3) + (e3 + 1074)) by lia.
        rewrite (pow2_split (ex - e3) (e3 + 1074)) by lia.
        pose proof (pow2_pos (e3 + 1074) ltac:(lia)).
        pose proof (pow2_pos (ex - e3) ltac:(lia)).
        remember (2 ^ (e3 + 1074)) as u. remember (2 ^ (ex - e3)) as v.
        nia.
Qed.

(** *** The loop on a number that is not negative *)

Lemma leb_360_negative (y : spec_float) :
  match y with
  | S754_zero _ | S754_nan => True
  | S754_infinity s | S754_finite s _ _ => s = true
  end ->
  SFleb B64.f360 y = false.
Proof.
  destruct y as [s|s| |s m e]; try reflexivity; intros ->; reflexivity.
Qed.

(** Whatever the loop returns from a number that is not negative is not
    negative, and fails the test. *)
Lemma wrap_360_keeps_nonneg (fuel : nat) :
  forall x a : spec_float,
    B64.nonneg x = true ->
    wrap_360 fuel x = Some a ->
    B64.nonneg a = true /\ fge a (of_int 360) = false.
Proof.
  induction fuel as [|fuel IH]; intros x a Hx; cbn [wrap_360];
    [discriminate|].
  destruct (fge x (of_int 360)) eqn:Hge.
  - intros Ha. apply (IH (fsub x (of_int 360)) a); [|exact Ha].
    clear Ha IH. rewrite of_int_360 in *. cbn [fge fsub binary64] in *.
    unfold B64.geb, B64.sub in *.
    destruct x as [s|s| |s m e]; cbn [B64.nonneg] in Hx; try discriminate.
    + destruct s; [discriminate|reflexivity].
    + apply andb_prop in Hx. destruct Hx as [Hs Hb].
      destruct s; [discriminate|].
      exact (proj1 (sub_360_step m e Hb Hge)).
  - intros Ha. injection Ha as <-. split; [exact Hx|exact Hge].
Qed.

Lemma scaled_nonneg (x : spec_float) : 0 <= B64.scaled x.
Proof.
  destruct x as [s|s| |s m e]; cbn [B64.scaled]; lia.
Qed.

(** Below [2^61] the loop ends. *)
Lemma wrap_360_small_ends (n : nat) :
  forall x : spec_float,
    B64.small x = true ->
    B64.scaled x < Z.of_nat n ->
    forall fuel, (n < fuel)%nat -> exists a, wrap_360 fuel x = Some a.
Proof.
  induction n as [|n IH]; intros x Hx Hn fuel Hfuel.
  - pose proof (scaled_nonneg x). lia.
  - destruct fuel as [|fuel]; [lia|]. cbn [wrap_360].
    destruct (fge x (of_int 360)) eqn:Hge; [|exists x; reflexivity].
    rewrite of_int_360 in *. cbn [fge fsub binary64] in *.
    unfold B64.geb, B64.sub in *.
    destruct x as [s|s| |s m e]; cbn [B64.small] in Hx; try discriminate.
    destruct s; [discriminate|].
    apply andb_prop in Hx. destruct Hx as [Hb He]. apply Z.leb_le in He.
    destruct (sub_360_step m e Hb Hge) as [_ Hstep].
    destruct (Hstep He) as [Hsmall Hlt].
    apply IH; [exact Hsmall|lia|lia].
Qed.

(** *** The first angle of a label *)

Lemma add_finite (sx : bool) (mx : positive) (ex : Z)
      (sy : bool) (my : positive) (ey : Z) :
  SFadd B64.prec B64.emax (S754_finite sx mx ex) (S754_finite sy my ey)
  = binary_normalize B64.prec B64.emax
      (cond_Zopp sx (Zpos mx * 2 ^ (ex - Z.min ex ey))
       + cond_Zopp sy (Zpos my * 2 ^ (ey - Z.min ex ey)))
      (Z.min ex ey) false.
Proof.
  cbn [SFadd].
  destruct (shl_align_spec mx ex (Z.min ex ey)) as [_ Hx].
  destruct (shl_align_spec my ey (Z.min ex ey)) as [_ Hy].
  replace (Z.min ex (Z.min ex ey)) with (Z.min ex ey) in Hx by lia.
  replace (Z.min ey (Z.min ex ey)) with (Z.min ex ey) in Hy by lia.
  rewrite Hx, Hy. reflexivity.
Qed.

Lemma Zdigits2_ge (m k : Z) : 0 <= k -> 2 ^ k <= m -> k + 1 <= Zdigits2 m.
Proof.
  intros Hk Hm.
  pose proof (pow2_pos k Hk) as Hp.
  destruct (Zdigits2_lower m ltac:(lia)) as [_ Hhi].
  assert (Hlt : 2 ^ k < 2 ^ Zdigits2 m) by lia.
  apply Z.pow_lt_mono_r_iff in Hlt; [lia|lia|apply Zdigits2_nonneg].
Qed.

Lemma binary_round_signed (p : positive) (e : Z) :
  match binary_round B64.prec B64.emax true p e with
  | S754_zero _ | S754_nan => True
  | S754_infinity s | S754_finite s _ _ => s = true
  end.
Proof.
  unfold binary_round. destruct (shl_align p e _) as [mz ez].
  pose proof (binary_round_aux_sign true (Zpos mz) ez loc_Exact) as Hs.
  destruct (binary_round_aux _ _ true (Zpos mz) ez loc_Exact); auto.
Qed.

(** The sum of a positive number and a positive tick angle is positive. *)
Lemma add_tick_nonneg (m : positive) (e : Z) (mc : positive) (ec : Z) :
  bounded B64.prec B64.emax m e = true ->
  2 ^ 52 <= Zpos mc < 2 ^ 53 -> -1074 <= ec <= 971 ->
  B64.nonneg (SFadd B64.prec B64.emax (S754_finite false m e)
                    (S754_finite false mc ec)) = true.
Proof.
  intros Hb Hmc Hec. rewrite add_finite. cbn [cond_Zopp].
  destruct (bounded_bounds m e Hb) as (_ & He & _).
  set (ez := Z.min e ec).
  pose proof (pow2_pos (e - ez) ltac:(subst ez; lia)) as Hp1.
  pose proof (pow2_pos (ec - ez) ltac:(subst ez; lia)) as Hp2.
  unfold binary_normalize.
  destruct (Zpos m * 2 ^ (e - ez) + Zpos mc * 2 ^ (ec - ez)) as [|q|q] eqn:Hq;
    [reflexivity| |lia].
  assert (Hd : 52 + (ec - ez) + 1 <= Zdigits2 (Zpos q)).
  { apply Zdigits2_ge; [subst ez; lia|].
    rewrite <- Hq, pow2_split by (subst ez; lia).
    remember (2 ^ (ec - ez)) as u. remember (2 ^ (e - ez)) as v.
    remember (2 ^ 52) as a in *. nia. }
  pose proof (binary_round_normal false q ez ltac:(lia)) as Hn.
  destruct (binary_round B64.prec B64.emax false q ez) as [s|s| |s m3 e3];
    try contradiction.
  - subst s. reflexivity.
  - destruct Hn as (-> & Hm3 & He3). cbn [B64.nonneg negb andb].
    apply normal_bounded; assumption.
Qed.

(** A positive number of at most [2^60] plus a positive tick angle is
    below [2^61]. *)
Lemma add_tick_small (m : positive) (e : Z) (mc : positive) (ec : Z) :
  bounded B64.prec B64.emax m e = true ->
  e < 8 \/ (e = 8 /\ Zpos m <= 2 ^ 52) ->
  2 ^ 52 <= Zpos mc < 2 ^ 53 -> -1074 <= ec <= -44 ->
  B64.small (SFadd B64.prec B64.emax (S754_finite false m e)
                   (S754_finite false mc ec)) = true.
Proof.
  intros Hb Hoff Hmc Hec.
  pose proof (add_tick_nonneg m e mc ec Hb Hmc ltac:(lia)) as Hnn.
  rewrite add_finite in *. cbn [cond_Zopp] in *.
  destruct (bounded_bounds m e Hb) as (Hm & He & _).
  set (ez := Z.min e ec) in *.
  assert (Hez : ez <= -44) by (subst ez; lia).
  pose proof (pow2_pos (e - ez) ltac:(subst ez; lia)) as Hp1.
  pose proof (pow2_pos (ec - ez) ltac:(subst ez; lia)) as Hp2.
  unfold binary_normalize in *.
  destruct (Zpos m * 2 ^ (e - ez) + Zpos mc * 2 ^ (ec - ez)) as [|q|q] eqn:Hq;
    [reflexivity| |lia].
  pose proof (binary_round_le_bound false (2 ^ 53 - 1) 8 q ez
                ltac:(lia) ltac:(split; [vm_compute; discriminate|lia])
                ltac:(lia)) as Hbound.
  assert (Hlt : Zpos q < (2 ^ 53 - 1) * 2 ^ (8 - ez)).
  { rewrite <- Hq.
    pose proof (pow2_pos (8 - ez) ltac:(lia)) as Hw.
    assert (H1 : Zpos m * 2 ^ (e - ez) <= 2 ^ 52 * 2 ^ (8 - ez)).
    { destruct Hoff as [Hlt|[-> Hle]].
      - apply Z.le_trans with (2 ^ 53 * 2 ^ (e - ez)).
        + apply Z.mul_le_mono_nonneg_r; lia.
        + replace (8 - ez) with (1 + (e - ez) + (7 - e)) by lia.
          rewrite !pow2_split by lia.
          change (2 ^ 53) with (2 ^ 52 * 2 ^ 1).
          pose proof (pow2_pos (7 - e) ltac:(lia)).
          remember (2 ^ (e - ez)) as v. remember (2 ^ (7 - e)) as t.
          remember (2 ^ 52) as a in *. change (2 ^ 1) with 2. nia.
      - apply Z.mul_le_mono_nonneg_r; lia. }
    assert (H2 : Zpos mc * 2 ^ (ec - ez) < 2 * 2 ^ (8 - ez)).
    { apply Z.lt_le_trans with (2 ^ 53 * 2 ^ (ec - ez)).
      - apply Z.mul_lt_mono_pos_r; lia.
      - replace (8 - ez) with (52 + (ec - ez) + (-44 - ec)) by lia.
        rewrite !pow2_split by lia.
        change (2 ^ 53) with (2 * 2 ^ 52).
        pose proof (pow2_pos (-44 - ec) ltac:(lia)).
        remember (2 ^ (ec - ez)) as v. remember (2 ^ (-44 - ec)) as t.
        remember (2 ^ 52) as a in *.
        assert (0 < a) by (subst a; reflexivity). nia. }
    change (2 ^ 53) with (2 * 2 ^ 52).
    remember (2 ^ (8 - ez)) as w. remember (2 ^ 52) as a in *.
    assert (4 <= a) by (subst a; vm_compute; discriminate). nia. }
  specialize (Hbound Hlt).
  destruct (binary_round B64.prec B64.emax false q ez) as [s|s| |s m3 e3];
    try contradiction; try reflexivity.
  destruct Hbound as [He3 _]. cbn [B64.nonneg B64.small] in *.
  apply andb_prop in Hnn. destruct Hnn as [Hs Hb3].
  destruct s; [discriminate|]. rewrite Hb3. apply Z.leb_le. exact He3.
Qed.

(** A negative number plus a tick angle is below 360. *)
Lemma add_tick_negative (m : positive) (e : Z) (mc : positive) (ec : Z) :
  0 < Zpos mc < 2 ^ 53 -> -1074 <= ec <= -44 ->
  (ec = -44 -> Zpos mc < B64.m360) ->
  SFleb B64.f360
        (SFadd B64.prec B64.emax (S754_finite true m e)
               (S754_finite false mc ec)) = false.
Proof.
  intros Hmc Hec H360. rewrite add_finite. cbn [cond_Zopp].
  set (ez := Z.min e ec).
  pose proof (pow2_pos (e - ez) ltac:(subst ez; lia)) as Hp1.
  pose proof (pow2_pos (ec - ez) ltac:(subst ez; lia)) as Hp2.
  unfold binary_normalize.
  destruct (- (Zpos m * 2 ^ (e - ez)) + Zpos mc * 2 ^ (ec - ez))
    as [|q|q] eqn:Hq.
  - reflexivity.
  - pose proof (binary_round_le_bound false (Zpos mc) ec q ez
                  ltac:(lia) ltac:(lia) ltac:(subst ez; lia)
                  ltac:(remember (2 ^ (e - ez)) as v;
                        remember (2 ^ (ec - ez)) as u; nia)) as Hb.
    destruct (binary_round B64.prec B64.emax false q ez) as [s|s| |s m3 e3];
      try contradiction; [reflexivity|].
    destruct Hb as [He3 Hm3].
    destruct s; [reflexivity|].
    destruct (SFleb B64.f360 (S754_finite false m3 e3)) eqn:Hle;
      [|reflexivity].
    exfalso. apply leb_360_finite in Hle.
    destruct Hle as [Hgt|[-> Hge]]; [lia|].
    assert (Heq : ec = -44) by lia. subst ec.
    change (2 ^ (-44 - -44)) with 1 in Hm3. specialize (H360 eq_refl).
    revert Hge Hm3 H360. generalize (Zpos m3) (Zpos mc) B64.m360.
    intros a b c. lia.
  - apply leb_360_negative. apply binary_round_signed.
Qed.

(** The angle [chunk * 45.0] of a tick is zero or a positive double below
    360. *)
Lemma tick_angle (chunk : Z) :
  0 <= chunk < 7 ->
  fmul (Arith:=binary64) (of_int chunk) (of_int 45) = S754_zero false
  \/ exists mc ec,
      fmul (Arith:=binary64) (of_int chunk) (of_int 45)
      = S754_finite false mc ec
      /\ 2 ^ 52 <= Zpos mc < 2 ^ 53
      /\ -1074 <= ec <= -44
      /\ (ec = -44 -> Zpos mc < B64.m360).
Proof.
  intros Hc.
  assert (H : chunk = 0 \/ chunk = 1 \/ chunk = 2 \/ chunk = 3 \/ chunk = 4
              \/ chunk = 5 \/ chunk = 6) by lia.
  destruct H as [->|[->|[->|[->|[->|[->| ->]]]]]];
    [left; reflexivity|right..];
    eexists; eexists;
    (split; [vm_compute; reflexivity|]);
    (split; [split; [vm_compute; discriminate|vm_compute; reflexivity]|]);
    (split; [lia|]);
    intros H; try discriminate H; vm_compute; reflexivity.
Qed.

Lemma gtb_2_60_finite (m : positive) (e : Z) :
  fgt (S754_finite false m e) (B64.ldexp 1 60) = false ->
  e < 8 \/ (e = 8 /\ Zpos m <= 2 ^ 52).
Proof.
  cbn [fgt binary64]. unfold B64.gtb, SFltb.
  change (B64.ldexp 1 60) with (S754_finite false 4503599627370496 8).
  cbn [SFcompare].
  destruct (Z.compare_spec 8 e) as [Heq|Hlt|Hgt].
  - subst e.
    change (Pos.compare_cont Eq 4503599627370496 m)
      with (4503599627370496 ?= Zpos m).
    change (2 ^ 52) with 4503599627370496.
    destruct (Z.compare_spec 4503599627370496 (Zpos m)) as [H|H|H];
      try discriminate; intros _; right; split; try reflexivity.
    + rewrite <- H. apply Z.le_refl.
    + apply Z.lt_le_incl. exact H.
  - discriminate.
  - intros _. left. lia.
Qed.

Lemma fle_0_nonneg (x : spec_float) :
  valid_binary B64.prec B64.emax x = true ->
  fle (of_int 0) x = true ->
  B64.nonneg x = true.
Proof.
  rewrite of_int_0.
  destruct x as [s|s| |s m e]; cbn [valid_binary B64.nonneg];
    try reflexivity; try discriminate.
  - destruct s; [discriminate|reflexivity].
  - intros Hb. destruct s; [discriminate|]. intros _. exact Hb.
Qed.

(** The first angle of a label is not negative when the offset is not. *)
Lemma first_angle_nonneg (offset : spec_float) (chunk : Z) :
  valid_binary B64.prec B64.emax offset = true ->
  fle (of_int 0) offset = true ->
  0 <= chunk < 7 ->
  B64.nonneg (fadd offset (fmul (of_int chunk) (of_int 45))) = true.
Proof.
  intros Hv Hle Hc. pose proof (fle_0_nonneg offset Hv Hle) as Hnn.
  cbn [fadd binary64]. unfold B64.add.
  destruct (tick_angle chunk Hc) as [->|(mc & ec & -> & Hmc & Hec & _)].
  - destruct offset as [s|s| |s m e]; cbn [B64.nonneg] in Hnn;
      try discriminate.
    + destruct s; reflexivity.
    + exact Hnn.
    + exact Hnn.
  - destruct offset as [s|s| |s m e]; cbn [B64.nonneg] in Hnn;
      try discriminate.
    + cbn [SFadd B64.nonneg negb andb]. apply normal_bounded; lia.
    + exact Hnn.
    + apply andb_prop in Hnn. destruct Hnn as [Hs Hb].
      destruct s; [discriminate|].
      apply add_tick_nonneg; [exact Hb|exact Hmc|lia].
Qed.

(** When the offset is at most [2^60] the first angle of a label fails the
    test of the loop, or is a positive double below [2^61]. *)
Lemma first_angle_ends (offset : spec_float) (chunk : Z) :
  valid_binary B64.prec B64.emax offset = true ->
  fgt offset (B64.ldexp 1 60) = false ->
  0 <= chunk < 7 ->
  let x := fadd offset (fmul (of_int chunk) (of_int 45)) in
  fge x (of_int 360) = false \/ B64.small x = true.
Proof.
  intros Hv Hgt Hc x. subst x. rewrite of_int_360.
  cbn [fadd fge binary64]. unfold B64.add, B64.geb.
  destruct (tick_angle chunk Hc) as [->|(mc & ec & -> & Hmc & Hec & H360)].
  - destruct offset as [s|s| |s m e]; cbn [valid_binary] in Hv.
    + right. destruct s; reflexivity.
    + left. destruct s; [reflexivity|discriminate Hgt].
    + left. reflexivity.
    + destruct s; [left; reflexivity|right].
      cbn [SFadd B64.small]. rewrite Hv. apply Z.leb_le.
      destruct (gtb_2_60_finite m e Hgt) as [H|[H _]]; lia.
  - destruct offset as [s|s| |s m e]; cbn [valid_binary] in Hv.
    + right. cbn [SFadd B64.small].
      rewrite (normal_bounded mc ec Hmc ltac:(lia)). apply Z.leb_le. lia.
    + left. destruct s; [reflexivity|discriminate Hgt].
    + left. reflexivity.
    + destruct s.
      * left. apply add_tick_negative; [lia|exact Hec|exact H360].
      * right. apply add_tick_small;
          [exact Hv|exact (gtb_2_60_finite m e Hgt)|exact Hmc|exact Hec].
Qed.

(** *** The label angles in double precision *)

(** For an offset that is not negative, an angle that the loop returns is
    in [0, 360). *)
Lemma b64_label_angle_range (offset : spec_float) (chunk : Z) (fuel : nat)
      (a : spec_float) :
  valid_binary B64.prec B64.emax offset = true ->
  fle (of_int 0) offset = true ->
  0 <= chunk < 7 ->
  label_angle fuel offset chunk = Some a ->
  fle (of_int 0) a = true /\ flt a (of_int 360) = true.
Proof.
  intros Hv Hle Hc Ha. unfold label_angle in Ha.
  destruct (wrap_360_keeps_nonneg fuel _ a
              (first_angle_nonneg offset chunk Hv Hle Hc) Ha) as [Hnn Hge].
  exact (nonneg_below_360 a Hnn Hge).
Qed.

(** For an offset of at most [2^60] the loop of each label ends. *)
Lemma b64_label_angle_ends (offset : spec_float) (chunk : Z) :
  valid_binary B64.prec B64.emax offset = true ->
  fgt offset (B64.ldexp 1 60) = false ->
  0 <= chunk < 7 ->
  exists n : nat,
    forall fuel : nat,
      (n < fuel)%nat -> exists a, label_angle fuel offset chunk = Some a.
Proof.
  intros Hv Hgt Hc. unfold label_angle.
  destruct (first_angle_ends offset chunk Hv Hgt Hc) as [Hnow|Hsmall].
  - exists 0%nat. intros fuel Hfuel. destruct fuel as [|fuel]; [lia|].
    cbn [wrap_360]. cbv zeta in Hnow. rewrite Hnow. eexists. reflexivity.
  - cbv zeta in Hsmall.
    set (x := fadd offset (fmul (of_int chunk) (of_int 45))) in *.
    exists (S (Z.to_nat (B64.scaled x))).
    apply wrap_360_small_ends; [exact Hsmall|].
    pose proof (scaled_nonneg x). lia.
Qed.


(** ** The label angles and the ticks *)


(** C3 as the code has it.  In any arithmetic an angle that the [while]
    loop returns fails the test [>= 360], and it is [offset + chunk * 45]
    itself when that already fails the test: nothing is added to a negative
    angle.  In double precision, for an offset that is not negative (and not
    NaN) and a chunk of the range 0..6, every angle that the loop returns is
    in [0, 360); and for every offset of at most [2^60], negative offsets
    and NaN included, the loop does return: some number of iterations is
    enough. *)
Theorem label_angle_below_360 :
  (forall (F : Type) (A : Arith F) (fuel : nat) (offset : F) (chunk : Z)
          (a : F),
      label_angle fuel offset chunk = Some a ->
      fge a (of_int 360) = false
      /\ (fge (fadd offset (fmul (of_int chunk) (of_int 45))) (of_int 360)
          = false ->
          a = fadd offset (fmul (of_int chunk) (of_int 45))))
  /\ (forall (offset : spec_float) (chunk : Z) (fuel : nat)
             (a : spec_float),
         valid_binary B64.prec B64.emax offset = true ->
         fle (of_int 0) offset = true ->
         0 <= chunk < 7 ->
         label_angle fuel offset chunk = Some a ->
         fle (of_int 0) a = true /\ flt a (of_int 360) = true)
  /\ (forall (offset : spec_float) (chunk : Z),
         valid_binary B64.prec B64.emax offset = true ->
         fgt offset (B64.ldexp 1 60) = false ->
         0 <= chunk < 7 ->
         exists n : nat,
           forall fuel : nat,
             (n < fuel)%nat ->
             exists a, label_angle fuel offset chunk = Some a).
Proof.
  split; [|split].
  - intros F A fuel offset chunk a Ha. unfold label_angle in Ha. split.
    + exact (wrap_360_exit fuel _ a Ha).
    + intros Hlow. exact (wrap_360_unchanged fuel _ a Hlow Ha).
  - intros offset chunk fuel a. apply b64_label_angle_range.
  - intros offset chunk. apply b64_label_angle_ends.
Qed.

(** The offset 370 at chunk 6 gives 640, wrapped once to 280. *)
Lemma label_angle_below_360_witness :
  valid_binary B64.prec B64.emax (of_int 370) = true
  /\ fle (Arith:=binary64) (of_int 0) (of_int 370) = true
  /\ fgt (Arith:=binary64) (of_int 370) (B64.ldexp 1 60) = false
  /\ 0 <= 6 < 7
  /\ label_angle (A:=binary64) 8 (of_int 370) 6 = Some (of_int 280)
  /\ fge (Arith:=binary64) (of_int 280) (of_int 360) = false
  /\ fle (Arith:=binary64) (of_int 0) (of_int 280) = true
  /\ flt (Arith:=binary64) (of_int 280) (of_int 360) = true
  /\ exists n : nat,
      forall fuel : nat,
        (n < fuel)%nat ->
        exists a, label_angle (A:=binary64) fuel (of_int 370) 6 = Some a.
Proof.
  assert (Hv : valid_binary B64.prec B64.emax (of_int 370) = true)
    by (vm_compute; reflexivity).
  assert (Hle : fle (Arith:=binary64) (of_int 0) (of_int 370) = true)
    by (vm_compute; reflexivity).
  assert (Hgt : fgt (Arith:=binary64) (of_int 370) (B64.ldexp 1 60) = false)
    by (vm_compute; reflexivity).
  assert (H6 : 0 <= 6 < 7) by lia.
  assert (H280 : label_angle (A:=binary64) 8 (of_int 370) 6
                 = Some (of_int 280)) by (vm_compute; reflexivity).
  pose proof label_angle_below_360 as (Hany & Hrange & Hends).
  destruct (Hrange (of_int 370) 6 8%nat (of_int 280) Hv Hle H6 H280)
    as [Hlo Hhi].
  split; [exact Hv|]. split; [exact Hle|]. split; [exact Hgt|].
  split; [exact H6|]. split; [exact H280|].
  split; [exact (proj1 (Hany spec_float binary64 8%nat (of_int 370) 6
                          (of_int 280) H280))|].
  split; [exact Hlo|]. split; [exact Hhi|].
  exact (Hends (of_int 370) 6 Hv Hgt H6).
Defined.

(** C3 fails as the spec words it: with the offset -10 the angle of the
    first tick is -10, which is below 0. *)
Lemma label_angle_counterexample :
  label_angle (A:=binary64) 8 (of_int (-10)) 0 = Some (of_int (-10))
  /\ flt (Arith:=binary64) (of_int (-10)) (of_int 0) = true.
Proof.
  vm_compute. split; reflexivity.
Qed.







(** * Further properties of [plot_sky] *)

(** ** The run in terms of the loop over the samples *)

Section Outcomes.
Context {F : Type} {A : Arith F} {Time Body : Type}.
Variable time_str : Time -> string.
Variable float_str : F -> string.

(** The world in which the loop starts once the observer has answered. *)
Lemma plot_sky_via_loop fuel target observer time ax_arg style_kwargs
      north_to_east_ccw grid az_label_offset (w : World F Time Body) frame :
  altaz observer (normalize_time time) target = inr frame ->
  let w0 :=
    mkWorld (start_axes ax_arg w) (warnings w)
      (altaz_calls w
         ++ [(normalize_time time, target); (normalize_time time, target)]) in
  let loop :=
    horizon_loop time_str (target_name target) (normalize_time time)
      (map radial frame) (map angular frame)
      (seq 0 (List.length frame)) None w0 in
  plot_sky time_str float_str fuel target observer time ax_arg style_kwargs
           north_to_east_ccw grid az_label_offset w
  = match fst loop with
    | Ret az_plot =>
        let a :=
          drawn_axes (ax (snd loop)) north_to_east_ccw grid
            (mkScatter (or_empty az_plot) (map radial (filter in_mask frame))
               (resolved_style style_kwargs target)) in
        match theta_labels float_str fuel az_label_offset with
        | Some labels =>
            (Ret (labelled_axes a labels),
             mkWorld (labelled_axes a labels) (warnings (snd loop))
               (altaz_calls (snd loop)))
        | None =>
            (Hang, mkWorld a (warnings (snd loop)) (altaz_calls (snd loop)))
        end
    | Raise e => (Raise e, snd loop)
    | Hang => (Hang, snd loop)
    end.
Proof.
  intros Hobs w0 loop. unfold plot_sky.
  unfold bind at 1.
  replace (resolve_ax ax_arg w)
    with (Ret tt, mkWorld (start_axes ax_arg w) (warnings w) (altaz_calls w))
    by (destruct ax_arg, w; reflexivity).
  unfold bind at 1, call_altaz at 1. rewrite Hobs.
  cbn [ax warnings altaz_calls].
  unfold bind at 1, call_altaz at 1. rewrite Hobs.
  cbn [ax warnings altaz_calls].
  unfold bind at 1. rewrite length_map, <- app_assoc. cbn [app].
  fold w0. fold loop.
  destruct loop as [[az_plot|e|] w1]; cbn [fst snd]; try reflexivity.
  unfold drawn_axes, labelled_axes, resolved_style, in_mask.
  rewrite filter_map_swap.
  destruct north_to_east_ccw, grid,
    (theta_labels float_str fuel az_label_offset); reflexivity.
Qed.

End Outcomes.

(** ** The loop reads only the entries it indexes *)

Section LoopIndices.
Context {F : Type} {A : Arith F} {Time Body : Type}.
Variable time_str : Time -> string.

(** Two runs of the loop over arrays that agree at every index of the range
    are the same run. *)
Lemma horizon_loop_ext tname (time time' : list Time)
      (altitude altitude' azimuth azimuth' : list F) :
  forall idx az_plot (w : World F Time Body),
    (forall i, In i idx -> nth_error time i = nth_error time' i) ->
    (forall i, In i idx -> nth_error altitude i = nth_error altitude' i) ->
    (forall i, In i idx -> nth_error azimuth i = nth_error azimuth' i) ->
    horizon_loop time_str tname time altitude azimuth idx az_plot w
    = horizon_loop time_str tname time' altitude' azimuth' idx az_plot w.
Proof.
  induction idx as [|i idx IH]; intros az_plot w Ht Ha Hz; cbn [horizon_loop].
  - reflexivity.
  - assert (IH' : forall az_plot (w : World F Time Body),
               horizon_loop time_str tname time altitude azimuth idx az_plot w
               = horizon_loop time_str tname time' altitude' azimuth' idx
                   az_plot w).
    { intros. apply IH; intros j Hj; [apply Ht|apply Ha|apply Hz]; right;
        exact Hj. }
    cbv beta iota delta [ret raise bind getitem warn].
    rewrite <- (Ht i (or_introl eq_refl)), <- (Ha i (or_introl eq_refl)),
      <- (Hz i (or_introl eq_refl)).
    destruct (nth_error altitude i) as [a|]; [|reflexivity].
    destruct (fgt a (of_int 91)).
    + destruct (nth_error time i) as [t|]; [|reflexivity]. apply IH'.
    + destruct (nth_error azimuth i) as [z|]; [|reflexivity]. apply IH'.
Qed.

(** A range in two parts: the loop runs the first part, then the second. *)
Lemma horizon_loop_app tname (time : list Time) (altitude azimuth : list F) :
  forall idx idx' az_plot (w : World F Time Body),
    horizon_loop time_str tname time altitude azimuth (idx ++ idx') az_plot w
    = match horizon_loop time_str tname time altitude azimuth idx az_plot w
      with
      | (Ret az_plot', w') =>
          horizon_loop time_str tname time altitude azimuth idx' az_plot' w'
      | (Raise e, w') => (Raise e, w')
      | (Hang, w') => (Hang, w')
      end.
Proof.
  induction idx as [|i idx IH]; intros idx' az_plot w;
    cbn [app horizon_loop].
  - reflexivity.
  - cbv beta iota delta [ret raise bind getitem warn].
    destruct (nth_error altitude i) as [a|]; [|reflexivity].
    destruct (fgt a (of_int 91)).
    + destruct (nth_error time i) as [t|]; [|reflexivity]. apply IH.
    + destruct (nth_error azimuth i) as [z|]; [|reflexivity]. apply IH.
Qed.
End LoopIndices.

(** ** Frames shorter or longer than the array of instants *)

Section Bounds.
Context {F : Type} {A : Arith F} {Time Body : Type}.
Variable time_str : Time -> string.
Variable float_str : F -> string.

(** The loop over a frame that has at most one entry per instant. *)
Lemma horizon_loop_short tname (time : list Time) (frame : list (AltAz F))
      (w : World F Time Body) :
  (List.length frame <= List.length time)%nat ->
  exists r,
    horizon_loop time_str tname time (map radial frame) (map angular frame)
      (seq 0 (List.length frame)) None w
    = (Ret r,
       mkWorld (ax w)
         (warnings w ++ horizon_warnings time_str tname time frame)
         (altaz_calls w))
    /\ or_empty r
       = map angular (filter (fun s => negb (below_horizon s)) frame).
Proof.
  intros Hlen.
  assert (Hfirst : List.length (firstn (List.length frame) time)
                   = List.length frame)
    by (rewrite length_firstn; lia).
  destruct (horizon_loop_run time_str tname frame
              (firstn (List.length frame) time) [] [] None w eq_refl Hfirst)
    as (r & Hrun & Hr).
  cbn [app List.length or_empty] in Hrun, Hr.
  exists r. split; [|exact Hr].
  unfold horizon_warnings in *. rewrite <- combine_firstn_r in Hrun.
  rewrite <- Hrun.
  apply horizon_loop_ext; try reflexivity.
  intros i Hi. apply in_seq in Hi. rewrite nth_error_firstn.
  destruct (Nat.ltb_spec i (List.length frame)); [reflexivity|lia].
Qed.

(** The loop over samples that lie beyond the last instant and are not above
    91: their azimuths are appended and [time] is not read. *)
Lemma horizon_loop_above tname (time : list Time) :
  forall (extra pre : list (AltAz F)) acc (w : World F Time Body),
    Forall (fun s => below_horizon s = false) extra ->
    exists r,
      horizon_loop time_str tname time
        (map radial (pre ++ extra)) (map angular (pre ++ extra))
        (seq (List.length pre) (List.length extra)) acc w
      = (Ret r, w)
      /\ or_empty r = or_empty acc ++ map angular extra.
Proof.
  induction extra as [|s extra IH]; intros pre acc w Hall.
  - exists acc. split; [reflexivity|]. cbn [map]. rewrite app_nil_r.
    reflexivity.
  - inversion Hall as [|s' extra' Hs Hall']; subst.
    cbn [List.length seq horizon_loop].
    cbv beta iota delta [ret raise bind getitem warn].
    rewrite !nth_error_map, nth_error_middle. cbn [option_map].
    fold (below_horizon s). rewrite Hs.
    destruct (IH (pre ++ [s])
                (Some match acc with
                      | None => [angular s]
                      | Some l => l ++ [angular s]
                      end) w Hall') as (r & Hrun & Hr).
    rewrite <- app_assoc, length_app in Hrun.
    cbn [app List.length] in Hrun. rewrite Nat.add_1_r in Hrun.
    exists r. split; [exact Hrun|].
    rewrite Hr. destruct acc as [l|]; cbn [or_empty map app].
    + rewrite <- app_assoc. reflexivity.
    + reflexivity.
Qed.

(** The loop over a frame none of whose samples beyond the last instant is
    above 91. *)
Lemma horizon_loop_total tname (time : list Time) (frame : list (AltAz F))
      (w : World F Time Body) :
  Forall (fun s => below_horizon s = false)
         (skipn (List.length time) frame) ->
  exists r,
    horizon_loop time_str tname time (map radial frame) (map angular frame)
      (seq 0 (List.length frame)) None w
    = (Ret r,
       mkWorld (ax w)
         (warnings w ++ horizon_warnings time_str tname time frame)
         (altaz_calls w))
    /\ or_empty r
       = map angular (filter (fun s => negb (below_horizon s)) frame).
Proof.
  intros Hall.
  set (pre := firstn (List.length time) frame) in *.
  set (extra := skipn (List.length time) frame) in *.
  assert (Hframe : frame = pre ++ extra)
    by (symmetry; apply firstn_skipn).
  assert (Hlen : (List.length pre <= List.length time)%nat)
    by (subst pre; rewrite length_firstn; lia).
  assert (Hw : horizon_warnings time_str tname time frame
               = horizon_warnings time_str tname time pre).
  { unfold horizon_warnings, pre. rewrite <- combine_firstn_l. reflexivity. }
  rewrite Hw, Hframe, length_app, seq_app, horizon_loop_app. cbn [Nat.add].
  assert (Hpre :
            horizon_loop time_str tname time
              (map radial (pre ++ extra)) (map angular (pre ++ extra))
              (seq 0 (List.length pre)) None w
            = horizon_loop time_str tname time
                (map radial pre) (map angular pre)
                (seq 0 (List.length pre)) None w).
  { apply horizon_loop_ext; try reflexivity;
      intros i Hi; apply in_seq in Hi;
      rewrite !nth_error_map, nth_error_app1 by lia; reflexivity. }
  rewrite Hpre.
  destruct (horizon_loop_short tname time pre w Hlen) as (r & Hrun & Hr).
  rewrite Hrun.
  destruct (horizon_loop_above tname time extra pre r
              (mkWorld (ax w)
                 (warnings w ++ horizon_warnings time_str tname time pre)
                 (altaz_calls w)) Hall) as (r' & Hrun' & Hr').
  exists r'. split; [exact Hrun'|].
  rewrite Hr', Hr, filter_app, map_app. f_equal. f_equal.
  symmetry. apply forallb_filter_id. apply forallb_forall.
  intros s Hs. rewrite Forall_forall in Hall. rewrite (Hall s Hs).
  reflexivity.
Qed.

(** The whole run when no sample beyond the last instant is above 91. *)
Lemma plot_sky_run_total fuel target observer time ax_arg style_kwargs
      north_to_east_ccw grid az_label_offset (w : World F Time Body) frame :
  altaz observer (normalize_time time) target = inr frame ->
  Forall (fun s => below_horizon s = false)
         (skipn (List.length (normalize_time time)) frame) ->
  let a :=
    drawn_axes (start_axes ax_arg w) north_to_east_ccw grid
      (mkScatter
         (map angular (filter (fun s => negb (below_horizon s)) frame))
         (map radial (filter in_mask frame))
         (resolved_style style_kwargs target)) in
  plot_sky time_str float_str fuel target observer time ax_arg style_kwargs
           north_to_east_ccw grid az_label_offset w
  = match theta_labels float_str fuel az_label_offset with
    | Some labels =>
        (Ret (labelled_axes a labels),
         world_after time_str w target (normalize_time time) frame
           (labelled_axes a labels))
    | None => (Hang, world_after time_str w target (normalize_time time) frame a)
    end.
Proof.
  intros Hobs Hall a.
  rewrite (plot_sky_via_loop time_str float_str fuel target observer time
             ax_arg style_kwargs north_to_east_ccw grid az_label_offset w
             frame Hobs).
  cbv zeta.
  match goal with
  | |- context [horizon_loop _ _ _ _ _ _ _ ?w0] =>
      destruct (horizon_loop_total (target_name target) (normalize_time time)
                  frame w0 Hall) as (r & Hrun & Hr)
  end.
  rewrite Hrun. cbn [fst snd ax warnings altaz_calls]. rewrite Hr.
  reflexivity.
Qed.

(** The whole run when the frame has at most one entry per instant. *)
Lemma plot_sky_run_short fuel target observer time ax_arg style_kwargs
      north_to_east_ccw grid az_label_offset (w : World F Time Body) frame :
  altaz observer (normalize_time time) target = inr frame ->
  (List.length frame <= List.length (normalize_time time))%nat ->
  let a :=
    drawn_axes (start_axes ax_arg w) north_to_east_ccw grid
      (mkScatter
         (map angular (filter (fun s => negb (below_horizon s)) frame))
         (map radial (filter in_mask frame))
         (resolved_style style_kwargs target)) in
  plot_sky time_str float_str fuel target observer time ax_arg style_kwargs
           north_to_east_ccw grid az_label_offset w
  = match theta_labels float_str fuel az_label_offset with
    | Some labels =>
        (Ret (labelled_axes a labels),
         world_after time_str w target (normalize_time time) frame
           (labelled_axes a labels))
    | None => (Hang, world_after time_str w target (normalize_time time) frame a)
    end.
Proof.
  intros Hobs Hlen. apply plot_sky_run_total; [exact Hobs|].
  rewrite skipn_all2 by exact Hlen. constructor.
Qed.

(** A list with an element that passes a test splits at the first such
    element. *)
Lemma first_passing {X} (p : X -> bool) (l : list X) :
  existsb p l = true ->
  exists mid s rest,
    l = mid ++ s :: rest
    /\ Forall (fun x => p x = false) mid
    /\ p s = true.
Proof.
  induction l as [|x l IH]; cbn [existsb]; [discriminate|].
  destruct (p x) eqn:Hx.
  - intros _. exists [], x, l. repeat split; [constructor|exact Hx].
  - cbn [orb]. intros Hl. destruct (IH Hl) as (mid & s & rest & -> & Hmid & Hs).
    exists (x :: mid), s, rest. repeat split; [constructor; assumption|exact Hs].
Qed.

(** The loop over a frame with a sample above 91 beyond the last instant:
    at the first such sample the loop asks for an instant that does not
    exist. *)
Lemma horizon_loop_index_error tname (time : list Time)
      (frame : list (AltAz F)) (w : World F Time Body) :
  existsb below_horizon (skipn (List.length time) frame) = true ->
  exists ws,
    horizon_loop time_str tname time (map radial frame) (map angular frame)
      (seq 0 (List.length frame)) None w
    = (Raise IndexError,
       mkWorld (ax w) (warnings w ++ ws) (altaz_calls w)).
Proof.
  intros Hex.
  destruct (first_passing _ _ Hex) as (mid & s & rest & Hsplit & Hmid & Hs).
  set (pre := firstn (List.length time) frame ++ mid).
  assert (Hframe : frame = pre ++ s :: rest).
  { subst pre. rewrite <- app_assoc, <- Hsplit. symmetry.
    apply firstn_skipn. }
  assert (Hlong : (List.length time <= List.length frame)%nat).
  { destruct (Nat.le_gt_cases (List.length time) (List.length frame))
      as [H|H]; [exact H|].
    rewrite skipn_all2 in Hsplit by lia.
    destruct mid; discriminate. }
  assert (Hlen : (List.length time <= List.length pre)%nat).
  { subst pre. rewrite length_app, length_firstn. lia. }
  assert (Hskip : skipn (List.length time) pre = mid).
  { subst pre. rewrite skipn_app, length_firstn.
    rewrite skipn_all2 by (rewrite length_firstn; lia).
    replace (List.length time
             - Nat.min (List.length time) (List.length frame))%nat
      with 0%nat by lia.
    reflexivity. }
  exists (horizon_warnings time_str tname time pre).
  rewrite Hframe at 3. rewrite length_app. cbn [List.length].
  rewrite seq_app, horizon_loop_app. cbn [Nat.add].
  assert (Hpre :
            horizon_loop time_str tname time
              (map radial frame) (map angular frame)
              (seq 0 (List.length pre)) None w
            = horizon_loop time_str tname time
                (map radial pre) (map angular pre)
                (seq 0 (List.length pre)) None w).
  { apply horizon_loop_ext; try reflexivity;
      intros i Hi; apply in_seq in Hi;
      rewrite Hframe, !nth_error_map, nth_error_app1 by lia; reflexivity. }
  rewrite Hpre.
  destruct (horizon_loop_total tname time pre w) as (r & Hrun & _).
  { rewrite Hskip. exact Hmid. }
  rewrite Hrun. cbn [seq horizon_loop].
  cbv beta iota delta [ret raise bind getitem warn].
  rewrite Hframe, nth_error_map, nth_error_middle. cbn [option_map].
  fold (below_horizon s). rewrite Hs.
  replace (nth_error time (List.length pre)) with (@None Time)
    by (symmetry; apply nth_error_None; lia).
  reflexivity.
Qed.

(** Every run: what [plot_sky] does for each answer of the observer. *)
Lemma plot_sky_cases fuel target observer time ax_arg style_kwargs
      north_to_east_ccw grid az_label_offset (w : World F Time Body) :
  let r := plot_sky time_str float_str fuel target observer time ax_arg
                    style_kwargs north_to_east_ccw grid az_label_offset w in
  let times := normalize_time time in
  let calls := altaz_calls w ++ [(times, target); (times, target)] in
  match altaz observer times target with
  | inl e =>
      r = (Raise e,
           mkWorld (start_axes ax_arg w) (warnings w)
             (altaz_calls w ++ [(times, target)]))
  | inr frame =>
      if existsb below_horizon (skipn (List.length times) frame)
      then exists ws,
          r = (Raise IndexError,
               mkWorld (start_axes ax_arg w) (warnings w ++ ws) calls)
      else
        let a :=
          drawn_axes (start_axes ax_arg w) north_to_east_ccw grid
            (mkScatter
               (map angular (filter (fun s => negb (below_horizon s)) frame))
               (map radial (filter in_mask frame))
               (resolved_style style_kwargs target)) in
        r = match theta_labels float_str fuel az_label_offset with
            | Some labels =>
                (Ret (labelled_axes a labels),
                 world_after time_str w target times frame
                   (labelled_axes a labels))
            | None => (Hang, world_after time_str w target times frame a)
            end
  end.
Proof.
  intros r times calls. subst r times calls.
  destruct (altaz observer (normalize_time time) target) as [e|frame] eqn:Hobs.
  - apply plot_sky_observer_fails. exact Hobs.
  - destruct (existsb below_horizon
                (skipn (List.length (normalize_time time)) frame)) eqn:Hex.
    + rewrite (plot_sky_via_loop time_str float_str fuel target observer time
                 ax_arg style_kwargs north_to_east_ccw grid az_label_offset w
                 frame Hobs).
      cbv zeta.
      match goal with
      | |- context [horizon_loop _ _ _ _ _ _ _ ?w0] =>
          destruct (horizon_loop_index_error (target_name target)
                      (normalize_time time) frame w0 Hex) as (ws & Hrun)
      end.
      rewrite Hrun. cbn [fst snd ax warnings altaz_calls].
      exists ws. reflexivity.
    + apply plot_sky_run_total; [exact Hobs|].
      apply Forall_forall. intros s Hs.
      destruct (below_horizon s) eqn:Hb; [|reflexivity].
      assert (existsb below_horizon
                (skipn (List.length (normalize_time time)) frame) = true)
        by (apply existsb_exists; exists s; split; assumption).
      congruence.
Qed.
End Bounds.

(** ** Style defaults *)

Lemma get_app_single (k k' v : string) (d : Py.dict) :
  Py.get k (d ++ [(k', v)])
  = match Py.get k d with
    | Some x => Some x
    | None => if String.eqb k k' then Some v else None
    end.
Proof.
  unfold Py.get. induction d as [|[k0 v0] d IH]; cbn [app find fst snd].
  - destruct (String.eqb k k'); reflexivity.
  - destruct (String.eqb k k0); [reflexivity|exact IH].
Qed.

Lemma contains_get (k : string) (d : Py.dict) :
  Py.contains k d = match Py.get k d with Some _ => true | None => false end.
Proof.
  unfold Py.contains, Py.get.
  induction d as [|[k0 v0] d IH]; cbn [existsb find fst snd]; [reflexivity|].
  destruct (String.eqb k k0); [reflexivity|exact IH].
Qed.

(** [setdefault] gives a key its default only when the key is absent, and
    leaves every other key alone. *)
Lemma get_setdefault (k k' v : string) (d : Py.dict) :
  Py.get k (Py.setdefault k' v d)
  = match Py.get k d with
    | Some x => Some x
    | None => if String.eqb k k' then Some v else None
    end.
Proof.
  unfold Py.setdefault. rewrite contains_get.
  destruct (Py.get k' d) as [x|] eqn:Hk'.
  - destruct (Py.get k d) as [y|] eqn:Hk; [reflexivity|].
    destruct (String.eqb_spec k k'); [congruence|reflexivity].
  - apply get_app_single.
Qed.

(** X1.  In the call of [scatter] the marker is the caller's, or the circle
    [o] when the caller gave none; the label is the caller's, or the name of
    the target (the empty string for a target without a name) when the caller
    gave none; every key the caller passed keeps its value. *)
Theorem plot_sky_style_defaults
        {F : Type} {A : Arith F} {Time Body : Type}
        (time_str : Time -> string) (float_str : F -> string)
        fuel target observer time ax_arg style_kwargs north_to_east_ccw grid
        az_label_offset (w : World F Time Body) frame :
  altaz observer (normalize_time time) target = inr frame ->
  (List.length frame <= List.length (normalize_time time))%nat ->
  let r := plot_sky time_str float_str fuel target observer time ax_arg
                    style_kwargs north_to_east_ccw grid az_label_offset w in
  let given := match style_kwargs with None => [] | Some d => d end in
  exists sc,
    collections (ax (snd r)) = collections (start_axes ax_arg w) ++ [sc]
    /\ Py.get "marker" (sc_style sc)
       = Some match Py.get "marker" given with
              | Some m => m
              | None => "o"%string
              end
    /\ Py.get "label" (sc_style sc)
       = Some match Py.get "label" given with
              | Some l => l
              | None => match name target with
                        | Some n => n
                        | None => EmptyString
                        end
              end
    /\ (forall k v, Py.get k given = Some v ->
                    Py.get k (sc_style sc) = Some v).
Proof.
  intros Hobs Hlen r given.
  pose proof (plot_sky_run_short time_str float_str fuel target observer time
                ax_arg style_kwargs north_to_east_ccw grid az_label_offset w
                frame Hobs Hlen) as Hrun.
  cbv zeta in Hrun. fold r in Hrun.
  eexists. split.
  - rewrite Hrun.
    destruct (theta_labels float_str fuel az_label_offset); reflexivity.
  - cbn [sc_style]. unfold resolved_style. fold given.
    rewrite !get_setdefault. cbn [String.eqb Ascii.eqb Bool.eqb].
    repeat split.
    + destruct (Py.get "marker" given); reflexivity.
    + unfold target_name.
      destruct (Py.get "label" given); reflexivity.
    + intros k v Hk. rewrite !get_setdefault, Hk. reflexivity.
Qed.

(** A caller that sets the marker and nothing else. *)
Lemma plot_sky_style_defaults_witness :
  let frame := [Demo.deg 45 0] in
  let times := ["20:00"%string] in
  let r := plot_sky Demo.time_str Demo.float_str 8 Demo.vega
                    (Demo.seeing frame) (ArrayTime times) None
                    (Some [("marker", "x")]%string) true true (of_int 0)
                    Demo.world0 in
  altaz (Demo.seeing frame) times Demo.vega = inr frame
  /\ (List.length frame <= List.length times)%nat
  /\ exists sc,
      collections (ax (snd r)) = [sc]
      /\ Py.get "marker" (sc_style sc) = Some "x"%string
      /\ Py.get "label" (sc_style sc) = Some "Vega"%string.
Proof.
  intros frame times r.
  split; [reflexivity|]. split; [cbn; lia|].
  destruct (plot_sky_style_defaults Demo.time_str Demo.float_str 8 Demo.vega
              (Demo.seeing frame) (ArrayTime times) None
              (Some [("marker", "x")]%string) true true (of_int 0)
              Demo.world0 frame eq_refl ltac:(cbn; lia))
    as (sc & Hc & Hm & Hl & _).
  exists sc. split; [exact Hc|]. split; [exact Hm|exact Hl].
Defined.

(** ** Exceptions *)

(** X3.  Once the observer has answered, the run raises [IndexError] exactly
    when the frame has, beyond the last instant, a sample whose transformed
    altitude is above 91: the warning of that sample needs an instant that
    does not exist.  The error comes out of the loop over the samples, before
    anything is drawn: the axes are as they were when the call started, the
    warnings emitted before the call are kept and the observer has been
    queried twice.  A frame with at most one entry per instant does not raise
    it. *)
Theorem plot_sky_index_error
        {F : Type} {A : Arith F} {Time Body : Type}
        (time_str : Time -> string) (float_str : F -> string)
        fuel target observer time ax_arg style_kwargs north_to_east_ccw grid
        az_label_offset (w : World F Time Body) frame :
  altaz observer (normalize_time time) target = inr frame ->
  let r := plot_sky time_str float_str fuel target observer time ax_arg
                    style_kwargs north_to_east_ccw grid az_label_offset w in
  let surplus := skipn (List.length (normalize_time time)) frame in
  (fst r = Raise IndexError
   <-> existsb (fun s => fgt (radial s) (of_int 91)) surplus = true)
  /\ (fst r = Raise IndexError ->
      ax (snd r) = start_axes ax_arg w
      /\ (exists ws, warnings (snd r) = warnings w ++ ws)
      /\ altaz_calls (snd r)
         = altaz_calls w
             ++ [(normalize_time time, target); (normalize_time time, target)])
  /\ ((List.length frame <= List.length (normalize_time time))%nat ->
      fst r <> Raise IndexError).
Proof.
  intros Hobs r surplus.
  pose proof (plot_sky_cases time_str float_str fuel target observer time
                ax_arg style_kwargs north_to_east_ccw grid az_label_offset w)
    as Hr.
  cbv zeta in Hr. fold r in Hr. rewrite Hobs in Hr. fold surplus in Hr.
  change (existsb (fun s => fgt (radial s) (of_int 91)) surplus)
    with (existsb below_horizon surplus).
  assert (Hshort : (List.length frame <= List.length (normalize_time time))%nat
                   -> existsb below_horizon surplus = false).
  { intros Hlen. subst surplus. rewrite skipn_all2 by exact Hlen.
    reflexivity. }
  destruct (existsb below_horizon surplus).
  - destruct Hr as (ws & ->). cbn [fst snd ax warnings altaz_calls].
    split; [split; reflexivity|]. split.
    + intros _. split; [reflexivity|]. split; [|reflexivity].
      exists ws. reflexivity.
    + intros Hlen. specialize (Hshort Hlen). discriminate.
  - rewrite Hr.
    destruct (theta_labels float_str fuel az_label_offset); cbn [fst];
      (split; [split; discriminate|]); split; discriminate.
Qed.

(** One instant and two samples, the second at altitude -5. *)
Lemma plot_sky_index_error_witness :
  let frame := [Demo.deg 45 0; Demo.deg (-5) 90] in
  let times := ["20:00"%string] in
  let r := Demo.run (Demo.seeing frame) times in
  altaz (Demo.seeing frame) times Demo.vega = inr frame
  /\ fst r = Raise IndexError
  /\ ax (snd r) = Demo.fresh_axes.
Proof.
  intros frame times r.
  pose proof (plot_sky_index_error (A:=binary64) Demo.time_str
                Demo.float_str 8 Demo.vega (Demo.seeing frame)
                (ArrayTime times) None None true true (of_int 0) Demo.world0
                frame eq_refl) as (Hiff & Hstate & _).
  assert (Hraise : fst r = Raise IndexError)
    by (apply Hiff; vm_compute; reflexivity).
  split; [reflexivity|]. split; [exact Hraise|].
  exact (proj1 (Hstate Hraise)).
Defined.

(** ** What a run that returns has done *)

(** X4.  The axes that [plot_sky] returns is the axes it drew on, as the
    world holds it after the call: one collection was appended to those it
    had, the grid is on exactly when [grid] is true (whatever it was
    before), and the canvas was redrawn once. *)
Theorem plot_sky_returns_axes_drawn_on
        {F : Type} {A : Arith F} {Time Body : Type}
        (time_str : Time -> string) (float_str : F -> string)
        fuel target observer time ax_arg style_kwargs north_to_east_ccw grid
        az_label_offset (w : World F Time Body) a :
  let r := plot_sky time_str float_str fuel target observer time ax_arg
                    style_kwargs north_to_east_ccw grid az_label_offset w in
  fst r = Ret a ->
  ax (snd r) = a
  /\ (exists sc, collections a = collections (start_axes ax_arg w) ++ [sc])
  /\ grid_on a = grid
  /\ draws a = S (draws (start_axes ax_arg w)).
Proof.
  intros r.
  pose proof (plot_sky_cases time_str float_str fuel target observer time
                ax_arg style_kwargs north_to_east_ccw grid az_label_offset w)
    as Hr.
  cbv zeta in Hr. fold r in Hr.
  destruct (altaz observer (normalize_time time) target) as [e'|frame].
  - rewrite Hr. discriminate.
  - destruct (existsb below_horizon
                (skipn (List.length (normalize_time time)) frame)).
    + destruct Hr as (ws & ->). discriminate.
    + rewrite Hr.
      destruct (theta_labels float_str fuel az_label_offset); [|discriminate].
      cbn [fst snd world_after ax]. intros Ha. injection Ha as <-.
      repeat split. eexists. reflexivity.
Qed.

(** A run that switches the grid off on an axes that had it on. *)
Lemma plot_sky_returns_axes_drawn_on_witness :
  let frame := [Demo.deg 45 0] in
  let r := plot_sky Demo.time_str Demo.float_str 8 Demo.vega
                    (Demo.seeing frame) (ArrayTime ["20:00"%string])
                    (Some Demo.clockwise_axes) None true false (of_int 0)
                    Demo.world0 in
  fst r = Ret (ax (snd r))
  /\ grid_on Demo.clockwise_axes = true
  /\ grid_on (ax (snd r)) = false
  /\ draws (ax (snd r)) = 2%nat.
Proof.
  intros frame r.
  assert (Hret : fst r = Ret (ax (snd r))) by (vm_compute; reflexivity).
  split; [exact Hret|]. split; [reflexivity|].
  pose proof (plot_sky_returns_axes_drawn_on (A:=binary64) Demo.time_str
                Demo.float_str 8 Demo.vega (Demo.seeing frame)
                (ArrayTime ["20:00"%string]) (Some Demo.clockwise_axes) None
                true false (of_int 0) Demo.world0 (ax (snd r))) as H.
  destruct (H Hret) as (_ & _ & Hg & Hd).
  split; [exact Hg|exact Hd].
Defined.

(** ** Two calls on the same axes *)



(** ** Counting the samples *)

Lemma map_snd_combine_short {X Y} (l : list X) :
  forall l' : list Y,
    (List.length l' <= List.length l)%nat -> map snd (combine l l') = l'.
Proof.
  induction l as [|x l IH]; intros [|y l'] Hlen; cbn in *;
    try reflexivity; try lia.
  f_equal. apply IH. lia.
Qed.

(** One warning for each sample above 91. *)
Lemma horizon_warnings_length {F : Type} {A : Arith F} {Time : Type}
      (time_str : Time -> string) tname (time : list Time)
      (frame : list (AltAz F)) :
  (List.length frame <= List.length time)%nat ->
  List.length (horizon_warnings time_str tname time frame)
  = List.length (filter below_horizon frame).
Proof.
  intros Hlen. unfold horizon_warnings. rewrite length_map.
  rewrite <- (map_snd_combine_short time frame Hlen) at 2.
  rewrite filter_map_swap, length_map. reflexivity.
Qed.

(** X6.  When the frame has at most one entry per instant, every sample
    is accounted for once: the number of warnings that the run adds and the
    number of angles passed to [scatter] sum to the number of samples. *)
Theorem plot_sky_warns_or_plots
        {F : Type} {A : Arith F} {Time Body : Type}
        (time_str : Time -> string) (float_str : F -> string)
        fuel target observer time ax_arg style_kwargs north_to_east_ccw grid
        az_label_offset (w : World F Time Body) frame :
  altaz observer (normalize_time time) target = inr frame ->
  (List.length frame <= List.length (normalize_time time))%nat ->
  let r := plot_sky time_str float_str fuel target observer time ax_arg
                    style_kwargs north_to_east_ccw grid az_label_offset w in
  exists ws sc,
    warnings (snd r) = warnings w ++ ws
    /\ collections (ax (snd r)) = collections (start_axes ax_arg w) ++ [sc]
    /\ (List.length ws + List.length (sc_theta sc))%nat = List.length frame.
Proof.
  intros Hobs Hlen r.
  pose proof (plot_sky_run_short time_str float_str fuel target observer time
                ax_arg style_kwargs north_to_east_ccw grid az_label_offset w
                frame Hobs Hlen) as Hrun.
  cbv zeta in Hrun. fold r in Hrun.
  eexists. eexists. split; [|split].
  - rewrite Hrun.
    destruct (theta_labels float_str fuel az_label_offset); reflexivity.
  - rewrite Hrun.
    destruct (theta_labels float_str fuel az_label_offset); reflexivity.
  - cbn [sc_theta].
    rewrite (horizon_warnings_length time_str _ _ _ Hlen), length_map.
    apply filter_length.
Qed.

(** Three samples, one of them below the horizon. *)
Lemma plot_sky_warns_or_plots_witness :
  let frame := [Demo.deg 45 0; Demo.deg (-5) 90; Demo.deg 10 180] in
  let times := ["20:00"; "20:30"; "21:00"]%string in
  let r := Demo.run (Demo.seeing frame) times in
  altaz (Demo.seeing frame) times Demo.vega = inr frame
  /\ (List.length frame <= List.length times)%nat
  /\ exists ws sc,
      warnings (snd r) = ws
      /\ collections (ax (snd r)) = [sc]
      /\ (List.length ws + List.length (sc_theta sc))%nat = 3%nat.
Proof.
  intros frame times r.
  split; [reflexivity|]. split; [cbn; lia|].
  exact (plot_sky_warns_or_plots (A:=binary64) Demo.time_str Demo.float_str 8
           Demo.vega (Demo.seeing frame) (ArrayTime times) None None true
           true (of_int 0) Demo.world0 frame eq_refl ltac:(cbn; lia)).
Defined.

(** ** Samples above the horizon in double precision *)

(** X7.  In double precision, when no altitude of the frame is NaN or
    negative, the run emits no warning and passes to [scatter] the angle and
    the radius of every sample, in sample order: one point for each
    sample. *)
Theorem b64_plot_sky_all_above_horizon
        {Time Body : Type} (time_str : Time -> string)
        (float_str : spec_float -> string)
        fuel target observer time ax_arg style_kwargs north_to_east_ccw grid
        az_label_offset (w : World spec_float Time Body) frame :
  altaz observer (normalize_time time) target = inr frame ->
  Forall (fun s => alt s <> B64.nan /\ flt (alt s) (of_int 0) = false)
         frame ->
  let r := plot_sky time_str float_str fuel target observer time ax_arg
                    style_kwargs north_to_east_ccw grid az_label_offset w in
  (forall e, fst r <> Raise e)
  /\ warnings (snd r) = warnings w
  /\ exists sc,
      collections (ax (snd r)) = collections (start_axes ax_arg w) ++ [sc]
      /\ sc_theta sc = map angular frame
      /\ sc_r sc = map radial frame.
Proof.
  intros Hobs Hall r.
  assert (Habove : Forall (fun s => below_horizon s = false) frame).
  { revert Hall. apply Forall_impl. intros s [_ Hs].
    unfold below_horizon, radial.
    destruct (fgt (fsub (of_int 91) (alt s)) (of_int 91)) eqn:Hgt;
      [|reflexivity].
    apply b64_above_91_negative in Hgt. congruence. }
  assert (Hmask : Forall (fun s => in_mask s = true) frame).
  { rewrite Forall_forall in *. intros s Hs.
    rewrite (b64_tests_agree s (proj1 (Hall s Hs))), (Habove s Hs).
    reflexivity. }
  assert (Hsurplus : Forall (fun s => below_horizon s = false)
                            (skipn (List.length (normalize_time time)) frame)).
  { rewrite Forall_forall in *. intros s Hs. apply Habove.
    rewrite <- (firstn_skipn (List.length (normalize_time time)) frame).
    apply in_or_app. right. exact Hs. }
  pose proof (plot_sky_run_total time_str float_str fuel target observer time
                ax_arg style_kwargs north_to_east_ccw grid az_label_offset w
                frame Hobs Hsurplus) as Hrun.
  cbv zeta in Hrun. fold r in Hrun.
  assert (Hno : horizon_warnings time_str (target_name target)
                  (normalize_time time) frame = []).
  { unfold horizon_warnings. rewrite filter_all_false; [reflexivity|].
    apply Forall_forall. intros [t s] Hts. cbn [snd].
    rewrite Forall_forall in Habove. apply Habove.
    exact (in_combine_r _ _ _ _ Hts). }
  assert (Hkeep : filter (fun s => negb (below_horizon s)) frame = frame).
  { apply forallb_filter_id, forallb_forall. intros s Hs.
    rewrite Forall_forall in Habove. rewrite (Habove s Hs). reflexivity. }
  assert (Hkeep' : filter in_mask frame = frame).
  { apply forallb_filter_id, forallb_forall.
    rewrite Forall_forall in Hmask. exact Hmask. }
  rewrite Hkeep, Hkeep' in Hrun.
  rewrite Hrun.
  destruct (theta_labels float_str fuel az_label_offset);
    cbn [fst snd world_after warnings ax]; rewrite Hno, app_nil_r;
    (split; [discriminate|]); (split; [reflexivity|]);
    eexists; repeat split.
Qed.

(** Two samples, at altitudes 0 and 45. *)
Lemma b64_plot_sky_all_above_horizon_witness :
  let frame := [Demo.deg 0 10; Demo.deg 45 20] in
  let times := ["20:00"; "20:30"]%string in
  let r := Demo.run (Demo.seeing frame) times in
  altaz (Demo.seeing frame) times Demo.vega = inr frame
  /\ Forall (fun s => alt s <> B64.nan /\ flt (alt s) (of_int 0) = false)
            frame
  /\ warnings (snd r) = []
  /\ exists sc,
      collections (ax (snd r)) = [sc]
      /\ sc_theta sc = map angular frame
      /\ sc_r sc = map radial frame.
Proof.
  intros frame times r.
  assert (Hall : Forall (fun s : AltAz spec_float =>
                           alt s <> B64.nan /\ flt (alt s) (of_int 0) = false)
                        frame).
  { repeat constructor; discriminate. }
  split; [reflexivity|]. split; [exact Hall|].
  exact (proj2 (b64_plot_sky_all_above_horizon Demo.time_str Demo.float_str 8
                  Demo.vega (Demo.seeing frame) (ArrayTime times) None None
                  true true (of_int 0) Demo.world0 frame eq_refl Hall)).
Defined.

(** ** The [while] loop of the labels *)




(** Two doubles with the same representation are equal. *)
Lemma same_double_eq (x y : spec_float) :
  Demo.same_double x y = true -> x = y.
Proof.
  destruct x as [s|s| |s m e], y as [s'|s'| |s' m' e']; cbn [Demo.same_double];
    try discriminate; try reflexivity.
  - intros H. apply Bool.eqb_prop in H. congruence.
  - intros H. apply Bool.eqb_prop in H. congruence.
  - intros H. apply andb_prop in H. destruct H as [H He].
    apply andb_prop in H. destruct H as [Hs Hm].
    apply Bool.eqb_prop in Hs. apply Pos.eqb_eq in Hm. apply Z.eqb_eq in He.
    congruence.
Qed.

(** X10.  In double precision, for every offset of a whole number of degrees
    from 0 to 3599 (ten turns), each of the seven label angles is computed
    within ten subtractions and is exactly the double of
    [(offset + 45 * chunk) mod 360]: the repeated subtraction loses
    nothing. *)
Theorem b64_whole_degree_label_angles (offset chunk : Z) :
  0 <= offset < 3600 ->
  0 <= chunk < 7 ->
  label_angle (A:=binary64) 11 (of_int offset) chunk
  = Some (of_int ((offset + 45 * chunk) mod 360)).
Proof.
  intros Hoff Hchunk.
  assert (Hall : forallb (Demo.labels_mod_360 11) (Py.range 0 3600 1) = true)
    by (vm_compute; reflexivity).
  rewrite forallb_forall in Hall.
  assert (Hin : In offset (Py.range 0 3600 1)).
  { unfold Py.range. apply in_map_iff.
    exists (Z.to_nat offset). split; [lia|].
    apply in_seq.
    change (Z.to_nat ((3600 - 0 + 1 - 1) / 1)) with 3600%nat. lia. }
  specialize (Hall offset Hin). unfold Demo.labels_mod_360 in Hall.
  rewrite forallb_forall in Hall.
  assert (Hin' : In chunk (Py.range 0 7 1)).
  { change (Py.range 0 7 1) with [0; 1; 2; 3; 4; 5; 6]. cbn [In]. lia. }
  specialize (Hall chunk Hin').
  change (of_int offset) with (B64.of_Z offset).
  destruct (label_angle 11 (B64.of_Z offset) chunk) as [a|];
    [|discriminate].
  apply same_double_eq in Hall. rewrite Hall. reflexivity.
Qed.

(** The offset 1000 at chunk 3: 1135 mod 360 is 55. *)
Lemma b64_whole_degree_label_angles_witness :
  0 <= 1000 < 3600
  /\ 0 <= 3 < 7
  /\ label_angle (A:=binary64) 11 (of_int 1000) 3 = Some (of_int 55).
Proof.
  split; [lia|]. split; [lia|].
  exact (b64_whole_degree_label_angles 1000 3 ltac:(lia) ltac:(lia)).
Defined.

(** ** What a call adds to the axes *)

(** X11.  A call adds at most one collection to the axes, after those it
    had; every radius of that collection is at most 91, the outer radial
    limit that the call sets. *)
Theorem plot_sky_radii_within_limit
        {F : Type} {A : Arith F} {Time Body : Type}
        (time_str : Time -> string) (float_str : F -> string)
        fuel target observer time ax_arg style_kwargs north_to_east_ccw grid
        az_label_offset (w : World F Time Body) :
  let r := plot_sky time_str float_str fuel target observer time ax_arg
                    style_kwargs north_to_east_ccw grid az_label_offset w in
  collections (ax (snd r)) = collections (start_axes ax_arg w)
  \/ exists sc,
      collections (ax (snd r)) = collections (start_axes ax_arg w) ++ [sc]
      /\ Forall (fun x => fle x (of_int 91) = true) (sc_r sc)
      /\ rlim (ax (snd r)) = (1, 91).
Proof.
  intros r.
  pose proof (plot_sky_cases time_str float_str fuel target observer time
                ax_arg style_kwargs north_to_east_ccw grid az_label_offset w)
    as Hr.
  cbv zeta in Hr. fold r in Hr.
  destruct (altaz observer (normalize_time time) target) as [e'|frame].
  - left. rewrite Hr. reflexivity.
  - destruct (existsb below_horizon
                (skipn (List.length (normalize_time time)) frame)).
    + left. destruct Hr as (ws & ->). reflexivity.
    + right. eexists. split; [|split].
      * rewrite Hr.
        destruct (theta_labels float_str fuel az_label_offset); reflexivity.
      * cbn [sc_r]. apply Forall_map, Forall_forall.
        intros s Hs. apply filter_In in Hs. exact (proj2 Hs).
      * rewrite Hr.
        destruct (theta_labels float_str fuel az_label_offset); reflexivity.
Qed.

(** X12.  The warnings, the queries of the observer, the exception if any
    and the points drawn do not depend on how the plot is to look: two calls
    that differ in the style, the direction, the grid, the label offset (and
    in how long the label loops may run) emit the same warnings, query the
    observer alike, raise the same exception or none, and add the same
    angles and radii. *)
Theorem plot_sky_data_ignores_display_options
        {F : Type} {A : Arith F} {Time Body : Type}
        (time_str : Time -> string) (float_str : F -> string)
        target observer time ax_arg (w : World F Time Body)
        fuel style_kwargs north_to_east_ccw grid az_label_offset
        fuel' style_kwargs' north_to_east_ccw' grid' az_label_offset' :
  let r := plot_sky time_str float_str fuel target observer time ax_arg
                    style_kwargs north_to_east_ccw grid az_label_offset w in
  let r' := plot_sky time_str float_str fuel' target observer time ax_arg
                     style_kwargs' north_to_east_ccw' grid' az_label_offset'
                     w in
  let points a := map (fun sc => (sc_theta sc, sc_r sc)) (collections a) in
  warnings (snd r) = warnings (snd r')
  /\ altaz_calls (snd r) = altaz_calls (snd r')
  /\ (forall e, fst r = Raise e <-> fst r' = Raise e)
  /\ points (ax (snd r)) = points (ax (snd r')).
Proof.
  intros r r' points. subst r r'.
  destruct (altaz observer (normalize_time time) target) as [e'|frame]
    eqn:Hobs.
  - rewrite !(plot_sky_observer_fails time_str float_str _ target observer
                time ax_arg _ _ _ _ w e' Hobs).
    repeat split; trivial.
  - rewrite !(plot_sky_via_loop time_str float_str _ target observer time
                ax_arg _ _ _ _ w frame Hobs).
    cbv zeta.
    match goal with
    | |- context [horizon_loop ?s ?n ?t ?al ?az ?idx ?acc ?w0] =>
        destruct (horizon_loop s n t al az idx acc w0) as [[az_plot|e|] w1]
    end; cbn [fst snd]; [|repeat split; trivial..].
    destruct (theta_labels float_str fuel az_label_offset),
      (theta_labels float_str fuel' az_label_offset');
      cbn [fst snd warnings altaz_calls ax];
      (split; [reflexivity|]); (split; [reflexivity|]);
      (split; [intros e; split; discriminate|]);
      unfold points;
      cbn [labelled_axes drawn_axes collections];
      rewrite !map_app; reflexivity.
Qed.

(** ** NaN in double precision *)

(** X13.  In double precision a NaN label offset does not keep the [while]
    loop going: [nan >= 360.0] is false, so every label angle is NaN after no
    subtraction at all, and the seven labels are those of NaN. *)
Theorem b64_nan_offset_labels (float_str : spec_float -> string)
        (fuel : nat) :
  (0 < fuel)%nat ->
  (forall chunk, label_angle (A:=binary64) fuel B64.nan chunk = Some B64.nan)
  /\ theta_labels float_str fuel B64.nan
     = Some (map (fun chunk => theta_label float_str chunk B64.nan)
                 [0; 1; 2; 3; 4; 5; 6]).
Proof.
  intros Hfuel.
  assert (Hangle : forall chunk,
             label_angle (A:=binary64) fuel B64.nan chunk = Some B64.nan).
  { intros chunk. unfold label_angle.
    replace (fadd B64.nan (fmul (of_int chunk) (of_int 45))) with B64.nan
      by (cbn [fadd binary64]; unfold B64.add, B64.nan;
          destruct (fmul (of_int chunk) (of_int 45)); reflexivity).
    destruct fuel as [|fuel]; [lia|]. reflexivity. }
  split; [exact Hangle|].
  unfold theta_labels. change (Py.range 0 7 1) with [0; 1; 2; 3; 4; 5; 6].
  cbn [theta_labels_loop]. rewrite !Hangle. reflexivity.
Qed.

(** One iteration allowed is enough. *)
Lemma b64_nan_offset_labels_witness :
  (0 < 1)%nat
  /\ label_angle (A:=binary64) 1 B64.nan 6 = Some B64.nan.
Proof.
  split; [lia|].
  exact (proj1 (b64_nan_offset_labels Demo.float_str 1 ltac:(lia)) 6).
Defined.

(** A NaN altitude passes neither test; any other altitude passes exactly
    one. *)
Lemma b64_tests_on_sample (s : AltAz spec_float) :
  if B64.is_nan (alt s)
  then below_horizon s = false /\ in_mask s = false
  else in_mask s = negb (below_horizon s).
Proof.
  destruct (B64.is_nan (alt s)) eqn:Hnan.
  - destruct s as [a z]. cbn [alt] in Hnan.
    destruct a; try discriminate. split; reflexivity.
  - apply b64_tests_agree. intros H. rewrite H in Hnan. discriminate.
Qed.

(** X14.  In double precision the array of angles passed to [scatter] is
    longer than the array of radii by the number of samples whose altitude is
    NaN: such a sample gets no warning, its azimuth is plotted and its radius
    is not. *)
Theorem b64_plot_sky_nan_altitudes
        {Time Body : Type} (time_str : Time -> string)
        (float_str : spec_float -> string)
        fuel target observer time ax_arg style_kwargs north_to_east_ccw grid
        az_label_offset (w : World spec_float Time Body) frame :
  altaz observer (normalize_time time) target = inr frame ->
  (List.length frame <= List.length (normalize_time time))%nat ->
  let r := plot_sky time_str float_str fuel target observer time ax_arg
                    style_kwargs north_to_east_ccw grid az_label_offset w in
  exists sc,
    collections (ax (snd r)) = collections (start_axes ax_arg w) ++ [sc]
    /\ List.length (sc_theta sc)
       = (List.length (sc_r sc)
          + List.length (filter (fun s => B64.is_nan (alt s)) frame))%nat.
Proof.
  intros Hobs Hlen r.
  pose proof (plot_sky_run_short time_str float_str fuel target observer time
                ax_arg style_kwargs north_to_east_ccw grid az_label_offset w
                frame Hobs Hlen) as Hrun.
  cbv zeta in Hrun. fold r in Hrun.
  eexists. split.
  - rewrite Hrun.
    destruct (theta_labels float_str fuel az_label_offset); reflexivity.
  - cbn [sc_theta sc_r]. rewrite !length_map.
    clear. induction frame as [|s frame IH]; [reflexivity|].
    cbn [filter]. pose proof (b64_tests_on_sample s) as Hs.
    destruct (B64.is_nan (alt s)).
    + destruct Hs as [-> ->]. cbn [negb List.length]. lia.
    + rewrite Hs. destruct (below_horizon s); cbn [negb List.length]; lia.
Qed.

(** Two samples, the first with a NaN altitude. *)
Lemma b64_plot_sky_nan_altitudes_witness :
  let frame := [Demo.undefined; Demo.deg 45 0] in
  let times := ["20:00"; "20:30"]%string in
  let r := Demo.run (Demo.seeing frame) times in
  altaz (Demo.seeing frame) times Demo.vega = inr frame
  /\ (List.length frame <= List.length times)%nat
  /\ exists sc,
      collections (ax (snd r)) = [sc]
      /\ List.length (sc_theta sc) = (List.length (sc_r sc) + 1)%nat.
Proof.
  intros frame times r.
  split; [reflexivity|]. split; [cbn; lia|].
  exact (b64_plot_sky_nan_altitudes Demo.time_str Demo.float_str 8 Demo.vega
           (Demo.seeing frame) (ArrayTime times) None None true true
           (of_int 0) Demo.world0 frame eq_refl ltac:(cbn; lia)).
Defined.
